(** * A batch data-preparation pipeline: extract, transform, validate, load

    A shallow embedding of the pipeline's four stages and of its
    orchestrator.  The stages work on pandas data frames that they read from
    and write to files; the embedding keeps that shape:

    - a data frame is an ordered list of column names and an ordered list of
      records, each record a finite map from column name to scalar;
    - the stages are programs in a state-and-exception monad over a world of
      files and of emitted log lines;
    - what the pandas and boto3 libraries do beyond what the stages rely on
      (how a string is read as a timestamp, whether an upload succeeds) is
      a parameter of the development, bundled in the classes [Pandas] and
      [Boto]. *)

From Stdlib Require Import ZArith Lia Ascii String.
From stdpp Require Import base tactics decidable option list gmap strings fin_maps.

Set Warnings "-clear-no-such-hyp".

Local Open Scope string_scope.
Local Open Scope list_scope.
Local Open Scope Z_scope.

(** ** Scalars, records and data frames *)

(** A cell of a data frame.  [CNull] is the missing value (NaN, None and NaT
    alike: [isnull] and [fillna] treat them as one); [CFloat] holds a float
    other than NaN by the bit pattern of its value, zero with the positive
    sign; [CTime] holds a timestamp by the nanoseconds from 1970-01-01T00:00
    to the time on its clock, which is what the [.dt] accessors read (for a
    column with a UTC offset, the clock at that offset). *)
Inductive cell : Type :=
  | CNull
  | CInt (n : Z)
  | CFloat (bits : Z)
  | CStr (s : string)
  | CTime (ns : Z).

#[global] Instance cell_eq_dec : EqDecision cell.
Proof. solve_decision. Defined.

Abbreviation row := (gmap string cell).

Record DataFrame : Type := mkDataFrame {
  columns : list string;
  rows : list row;
}.

#[global] Instance DataFrame_eq_dec : EqDecision DataFrame.
Proof. solve_decision. Defined.

(** [len(df)] *)
Definition len (df : DataFrame) : nat := length (rows df).

(** A path, by its components; the last one is the file's name. *)
Abbreviation Path := (list string).

(** ** Exceptions *)

Inductive exn : Type :=
  | FileNotFoundError (p : Path)
  | ParserError (p : Path)
  | KeyError (c : string)
  | LengthMismatch
  | AttributeError
  | ValueError
  | IntCastingNaNError.

Inductive result (A : Type) : Type :=
  | Ok (a : A)
  | Err (e : exn).
Arguments Ok {A} a.
Arguments Err {A} e.

#[global] Instance result_ret : MRet result := λ A a, Ok a.
#[global] Instance result_bind : MBind result := λ A B f m,
  match m with
  | Ok a => f a
  | Err e => Err e
  end.

(** ** Series operations used by the transformer *)

(** The values of column [c], top to bottom. *)
Definition column_values (df : DataFrame) (c : string) : list cell :=
  fmap (λ r : row, default CNull (r !! c)) (rows df).

(** [df[c]] *)
Definition getitem (df : DataFrame) (c : string) : result (list cell) :=
  if decide (c ∈ columns df) then Ok (column_values df c) else Err (KeyError c).

(** [df[c] = vals]: an existing column is overwritten in place, a new one is
    appended as the last column. *)
Definition setitem (df : DataFrame) (c : string) (vals : list cell) : result DataFrame :=
  if decide (length vals = len df)
  then Ok {| columns := if decide (c ∈ columns df) then columns df
                        else columns df ++ [c];
             rows := zip_with (λ (r : row) v, <[c := v]> r) (rows df) vals |}
  else Err LengthMismatch.

Definition NS_PER_HOUR : Z := 3600 * 10 ^ 9.
Definition NS_PER_DAY : Z := 24 * NS_PER_HOUR.

(** Hour of the day, 0..23, of a timestamp. *)
Definition hour_of_ns (ns : Z) : Z := (ns / NS_PER_HOUR) mod 24.

(** Day of the week of a timestamp, Monday = 0 .. Sunday = 6; the epoch was
    a Thursday. *)
Definition weekday_of_ns (ns : Z) : Z := (ns / NS_PER_DAY + 3) mod 7.

Definition is_datetimelike (c : cell) : bool :=
  match c with
  | CTime _ | CNull => true
  | _ => false
  end.

(** [s.dt.<field>]: defined on datetime columns only; NaT gives NaN. *)
Definition dt_field (f : Z → Z) (s : list cell) : result (list (option Z)) :=
  if forallb is_datetimelike s
  then Ok (fmap (λ c, match c with CTime ns => Some (f ns) | _ => None end) s)
  else Err AttributeError.

Definition dt_hour : list cell → result (list (option Z)) := dt_field hour_of_ns.
Definition dt_weekday : list cell → result (list (option Z)) := dt_field weekday_of_ns.

(** [s.fillna(v)] on a numeric series. *)
Definition fillna (v : Z) (s : list (option Z)) : list (option Z) :=
  fmap (λ x, match x with Some n => Some n | None => Some v end) s.

(** [s.astype(int)]: fails on a series that still holds NaN. *)
Fixpoint astype_int (s : list (option Z)) : result (list cell) :=
  match s with
  | [] => Ok []
  | Some n :: s' => rest ← astype_int s'; Ok (CInt n :: rest)
  | None :: _ => Err IntCastingNaNError
  end.

(** ** Series operations used by the validator *)

Definition is_null (c : cell) : bool :=
  match c with
  | CNull => true
  | _ => false
  end.

(** [df.isnull().sum()]: per column, in column order, how many values are
    missing. *)
Definition isnull_sum (df : DataFrame) : list (string * nat) :=
  fmap (λ c, (c, length (filter (λ v, is_null v = true) (column_values df c)))) (columns df).

Inductive dtype : Type := Int64 | Float64 | Datetime64 | Object.

Definition is_number (c : cell) : bool :=
  match c with
  | CInt _ | CFloat _ | CNull => true
  | _ => false
  end.

Definition is_int (c : cell) : bool :=
  match c with
  | CInt _ => true
  | _ => false
  end.

(** The dtype a reader gives a column with these values: integers only,
    numbers with gaps or fractions, timestamps, or anything else; a column
    without values is read as objects. *)
Definition dtype_of (s : list cell) : dtype :=
  match s with
  | [] => Object
  | _ =>
      if forallb is_int s then Int64
      else if forallb is_number s then Float64
      else if forallb is_datetimelike s then Datetime64
      else Object
  end.

(** [pd.api.types.is_numeric_dtype(s)] *)
Definition is_numeric_dtype (s : list cell) : bool :=
  match dtype_of s with
  | Int64 | Float64 => true
  | _ => false
  end.

(** [s.duplicated()]: marks every value that occurred earlier in [s]
    ([seen] holds the earlier values). *)
Fixpoint duplicated_from (seen : list cell) (s : list cell) : list bool :=
  match s with
  | [] => []
  | v :: s' => bool_decide (v ∈ seen) :: duplicated_from (v :: seen) s'
  end.

Definition duplicated (s : list cell) : list bool := duplicated_from [] s.

(** [.sum()] of a boolean series. *)
Definition sum_bool (s : list bool) : nat := length (filter (λ b, b = true) s).

(** ** Paths *)

(** [p.name] *)
Definition name (p : Path) : string := List.last p "".

(** [p.parent] *)
Definition parent (p : Path) : Path := removelast p.

(** [dir / file] *)
Definition joinpath (dir : Path) (file : string) : Path := dir ++ [file].

(** [s.rfind('.')], scanning [s] from position [i]. *)
Fixpoint rfind_dot (s : string) (i : nat) (found : option nat) : option nat :=
  match s with
  | EmptyString => found
  | String c s' => rfind_dot s' (S i) (if Ascii.eqb c "."%char then Some i else found)
  end.

(** [p.suffix]: the last dot of the name and what follows it, unless that
    dot opens or closes the name. *)
Definition suffix (p : Path) : string :=
  let n := name p in
  match rfind_dot n 0 None with
  | Some i =>
      if (0 <? i)%nat && (i <? String.length n - 1)%nat
      then String.substring i (String.length n - i) n
      else ""
  | None => ""
  end.

(** ** Files *)

(** Delimited text, plain or under one of the compressions that [read_csv]
    knows, and parquet. *)
Inductive format : Type :=
  | CsvText
  | GzipCsvText
  | Bz2CsvText
  | ZipCsvText
  | XzCsvText
  | ZstdCsvText
  | TarCsvText
  | Parquet.

#[global] Instance format_eq_dec : EqDecision format.
Proof. solve_decision. Defined.

(** A file: the format of its bytes, and a frame that they hold.  For
    parquet that is the frame stored, types and all.  For a text format it
    is a frame that [to_csv] writes as this text, record by record; the text
    keeps no types, and a reader infers them from the records it reads. *)
Record file : Type := mkFile {
  file_format : format;
  file_frame : DataFrame;
}.

(** ** What the pipeline takes from pandas as given *)

(** [to_datetime] first guesses one format for the whole column and then
    reads every string of the column with it; how it guesses and how it
    reads strings and floats is pandas' business and stays a parameter.
    A string that is read may carry a UTC offset, [utc_offset]; the
    timestamp read is the time on the clock at that offset.  A column whose
    strings carry differing offsets is no datetime column:
    [mixed_offsets_error] is the exception that ends [transform] then,
    [ValueError] where [to_datetime] itself raises (pandas 3), and
    [AttributeError] where it returns a column of objects and the [.dt] of
    the next line raises (pandas 2).
    [csv_text] is what [read_csv] returns for the text that [to_csv] writes
    for a frame.  [misread r b n df] is what the reader of format [r], asked
    for [n] records, makes of bytes that hold [df] in another format [b]: a
    frame, or nothing when it raises. *)
Class Pandas : Type := {
  dt_format : Type;
  guess_datetime_format : list cell → dt_format;
  parse_datetime_string : dt_format → string → option Z;
  utc_offset : dt_format → string → option Z;
  mixed_offsets_error : exn;
  parse_datetime_float : Z → option Z;
  csv_text : DataFrame → DataFrame;
  misread : format → format → option nat → DataFrame → option DataFrame;
}.

(** ** What the pipeline takes from boto3 as given *)

(** How the attempt to create a client and upload a file ends. *)
Inductive upload_outcome : Type :=
  | UploadDone
  | UploadNoCredentials
  | UploadException (e : string).

(** [AWS_AVAILABLE] is whether boto3 could be imported; [s3_upload_file] is
    how the upload of a local file to a bucket under a key ends. *)
Class Boto : Type := {
  AWS_AVAILABLE : bool;
  s3_upload_file : Path → string → string → upload_outcome;
}.

(** ** The transformer, on frames *)

Section Transformer.
Context `{Pandas}.

(** One value under [to_datetime(..., errors="coerce")]: missing stays
    missing, a timestamp is kept, an integer counts nanoseconds since the
    epoch, and whatever cannot be read becomes NaT instead of an error. *)
Definition to_datetime_cell (f : dt_format) (c : cell) : cell :=
  match c with
  | CNull => CNull
  | CTime ns => CTime ns
  | CInt n => if bool_decide (- 2 ^ 63 < n < 2 ^ 63) then CTime n else CNull
  | CFloat b => from_option CTime CNull (parse_datetime_float b)
  | CStr s => from_option CTime CNull (parse_datetime_string f s)
  end.

(** The UTC offsets that the strings of a column carry, one entry for every
    string that format [f] reads (no offset is an entry of its own). *)
Definition carried_offsets (f : dt_format) (s : list cell) : list (option Z) :=
  omap (λ c, match c with
             | CStr x => _ ← parse_datetime_string f x; Some (utc_offset f x)
             | _ => None
             end) s.

(** Two strings of the column are read with differing offsets. *)
Definition mixed_offsets (f : dt_format) (s : list cell) : bool :=
  match carried_offsets f s with
  | [] => false
  | o :: os => negb (forallb (λ o', bool_decide (o' = o)) os)
  end.

(** [pd.to_datetime(s, errors="coerce")], as far as [transform] gets with
    it: [errors="coerce"] covers the values that cannot be read, not the
    column of mixed offsets. *)
Definition to_datetime_coerce (s : list cell) : result (list cell) :=
  let f := guess_datetime_format s in
  if mixed_offsets f s then Err mixed_offsets_error
  else Ok (fmap (to_datetime_cell f) s).

(** Rows of [rs] not already in [seen], each kept at its first occurrence. *)
Fixpoint drop_seen (seen : list row) (rs : list row) : list row :=
  match rs with
  | [] => []
  | r :: rs' =>
      if decide (r ∈ seen) then drop_seen seen rs'
      else r :: drop_seen (r :: seen) rs'
  end.

(** [df.drop_duplicates()]: all columns compared, first occurrence kept. *)
Definition drop_duplicates (df : DataFrame) : DataFrame :=
  {| columns := columns df; rows := drop_seen [] (rows df) |}.

(** Step 2 of [transform]: parse [hour] and derive the time features. *)
Definition parse_hour_features (df : DataFrame) : result DataFrame :=
  if decide ("hour" ∈ columns df) then
    hour ← getitem df "hour";
    parsed ← to_datetime_coerce hour;
    df ← setitem df "hour" parsed;
    hour ← getitem df "hour";
    h ← dt_hour hour;
    hour_of_day ← astype_int (fillna (-1) h);
    df ← setitem df "hour_of_day" hour_of_day;
    hour ← getitem df "hour";
    w ← dt_weekday hour;
    weekday ← astype_int (fillna (-1) w);
    setitem df "weekday" weekday
  else Ok df.

(** Steps 2 and 3 of [transform], from the frame read to the frame written,
    with the number of rows that step 3 reports as removed. *)
Definition transform_frame (df : DataFrame) : result (DataFrame * Z) :=
  df ← parse_hour_features df;
  let before := len df in
  let df := drop_duplicates df in
  Ok (df, Z.of_nat before - Z.of_nat (len df)).

End Transformer.

(** ** The world: files, standard output, the remote store *)

Inductive level : Type := INFO | WARNING | ERROR.

#[global] Instance level_eq_dec : EqDecision level.
Proof. solve_decision. Defined.

(** What the stages say, by log line or by [print], with the values their
    format strings interpolate. *)
Inductive message : Type :=
  | MsgReadingFrom (p : Path)
  | MsgSampleLoaded (nrows ncols : nat)
  | MsgSampleSaved (p : Path)
  | MsgTransforming (src dst : string)
  | MsgLoaded (nrows ncols : nat)
  | MsgRemovedDuplicates (n : Z)
  | MsgSavedCleaned (p : Path)
  | MsgValidating (src : string)
  | MsgMissingColumns (cols : list string)
  | MsgSchemaPassed
  | MsgNullsFound (report : list (string * nat))
  | MsgNoNulls
  | MsgNotNumeric (col : string)
  | MsgDuplicatedIds (n : nat)
  | MsgIdsUnique
  | MsgValidationCompleted
  | MsgLoading (src dst : string)
  | MsgSavedCurated (p : Path) (nrows ncols : nat)
  | MsgBotoMissing
  | MsgUploaded (file bucket key : string)
  | MsgNoCredentials
  | MsgUploadFailed (e : string)
  | MsgPipelineStart
  | MsgStep (n : nat)
  | MsgPipelineDone.

#[global] Instance message_eq_dec : EqDecision message.
Proof. solve_decision. Defined.

Inductive output : Type :=
  | Printed (msg : message)
  | LogLine (source : string) (lvl : level) (msg : message).

#[global] Instance output_eq_dec : EqDecision output.
Proof. solve_decision. Defined.

Record world : Type := mkWorld {
  files : gmap Path file;
  stdout : list output;
  bucket_objects : list (string * string * Path);
}.

(** ** Programs: state over the world, with exceptions *)

Definition M (A : Type) : Type := world → result A * world.

#[global] Instance M_ret : MRet M := λ A a w, (Ok a, w).
#[global] Instance M_bind : MBind M := λ A B f m w,
  match m w with
  | (Ok a, w') => f a w'
  | (Err e, w') => (Err e, w')
  end.

(** An exception of a frame operation, raised in a stage. *)
Definition lift {A : Type} (r : result A) : M A := λ w, (r, w).

Definition emit (o : output) : M unit := λ w,
  (Ok tt, {| files := files w; stdout := stdout w ++ [o];
             bucket_objects := bucket_objects w |}).

(** [for x in xs: body(x)] *)
Fixpoint for_each {A : Type} (xs : list A) (body : A → M unit) : M unit :=
  match xs with
  | [] => mret tt
  | x :: xs' => body x;; for_each xs' body
  end.

(** *** Logging *)

(** A logger, by its name.  [setup_logging] gives every logger the level
    INFO and one handler on standard output, so each call below prints. *)
Definition Logger : Type := string.
Definition setup_logging (name : string) : Logger := name.

Definition log_info (lg : Logger) (msg : message) : M unit := emit (LogLine lg INFO msg).
Definition log_warning (lg : Logger) (msg : message) : M unit := emit (LogLine lg WARNING msg).
Definition log_error (lg : Logger) (msg : message) : M unit := emit (LogLine lg ERROR msg).
Definition print (msg : message) : M unit := emit (Printed msg).

(** *** Files *)

(** Directories are not modelled: a write creates or replaces the file at
    its path, and [mkdir(parents=True, exist_ok=True)] has nothing to do. *)
Definition mkdir_parents (dir : Path) : M unit := mret tt.

Definition write_file (p : Path) (f : file) : M unit := λ w,
  (Ok tt, {| files := <[p := f]> (files w); stdout := stdout w;
             bucket_objects := bucket_objects w |}).

Section Readers.
Context `{Pandas}.

(** The first [n] rows of a frame, all of them when no [n] is given. *)
Definition head_rows (n : option nat) (df : DataFrame) : DataFrame :=
  match n with
  | Some n => {| columns := columns df; rows := take n (rows df) |}
  | None => df
  end.

(** What a reader of format [fmt], asked for [nrows] records, returns for
    the file [f] at [p].  Parquet is read whole and as stored; of a text the
    reader takes the records asked for and infers the column types from
    them alone. *)
Definition parse_file (fmt : format) (nrows : option nat) (p : Path) (f : file)
    : result DataFrame :=
  if decide (file_format f = fmt) then
    Ok (match fmt with
        | Parquet => file_frame f
        | _ => csv_text (head_rows nrows (file_frame f))
        end)
  else match misread fmt (file_format f) nrows (file_frame f) with
       | Some df => Ok df
       | None => Err (ParserError p)
       end.

(** Reading [nrows] records of the file at [p] as [fmt]: the file must be
    there. *)
Definition read_rows (fmt : format) (nrows : option nat) (p : Path) : M DataFrame := λ w,
  match files w !! p with
  | None => (Err (FileNotFoundError p), w)
  | Some f => (parse_file fmt nrows p f, w)
  end.

(** Reading the whole file. *)
Definition read_file (fmt : format) (p : Path) : M DataFrame := read_rows fmt None p.

Inductive compression : Type := Infer | Gzip.

Definition lower_ascii (c : ascii) : ascii :=
  let n := nat_of_ascii c in
  if (65 <=? n)%nat && (n <=? 90)%nat then ascii_of_nat (n + 32) else c.

(** [s.lower()], for a name in ASCII. *)
Fixpoint lower (s : string) : string :=
  match s with
  | EmptyString => EmptyString
  | String c s' => String (lower_ascii c) (lower s')
  end.

(** [s.endswith(e)] *)
Definition endswith (s e : string) : bool :=
  (String.length e <=? String.length s)%nat &&
  String.eqb (String.substring (String.length s - String.length e) (String.length e) s) e.

(** The extensions by which [read_csv] tells a compression, in the order in
    which it tries them. *)
Definition extension_to_compression : list (string * format) :=
  [(".tar", TarCsvText); (".tar.gz", TarCsvText); (".tar.bz2", TarCsvText);
   (".tar.xz", TarCsvText); (".gz", GzipCsvText); (".bz2", Bz2CsvText);
   (".zip", ZipCsvText); (".xz", XzCsvText); (".zst", ZstdCsvText)].

(** [compression="infer"]: the first extension of the table that ends the
    path in lower case decides, and without one the bytes are plain text.
    No extension holds a separator, so the end of the path is the end of its
    name. *)
Definition infer_compression (p : Path) : format :=
  match filter (λ ec : string * format, endswith (lower (name p)) ec.1 = true)
               extension_to_compression with
  | ec :: _ => ec.2
  | [] => CsvText
  end.

(** The format [read_csv] takes the bytes at [p] to be. *)
Definition csv_format (c : compression) (p : Path) : format :=
  match c with
  | Gzip => GzipCsvText
  | Infer => infer_compression p
  end.

(** [pd.read_csv(p, compression=c, nrows=n)] *)
Definition read_csv (p : Path) (c : compression) (nrows : option nat) : M DataFrame :=
  read_rows (csv_format c p) nrows p.

(** [pd.read_parquet(p)] *)
Definition read_parquet (p : Path) : M DataFrame := read_file Parquet p.

(** [df.to_parquet(p, index=False)] *)
Definition to_parquet (df : DataFrame) (p : Path) : M unit :=
  write_file p {| file_format := Parquet; file_frame := df |}.

(** [df.to_csv(p, index=False)]: the writer infers a compression from the
    path as the reader does. *)
Definition to_csv (df : DataFrame) (p : Path) : M unit :=
  write_file p {| file_format := csv_format Infer p; file_frame := df |}.

End Readers.

(** ** Configuration *)

Record Config : Type := mkConfig {
  project_root : Path;
  sample_rows : nat;
}.

Definition data_dir (cfg : Config) : Path := joinpath (project_root cfg) "data".
Definition raw_dir (cfg : Config) : Path := joinpath (data_dir cfg) "raw".
Definition samples_dir (cfg : Config) : Path := joinpath (data_dir cfg) "samples".
Definition staged_dir (cfg : Config) : Path := joinpath (data_dir cfg) "staged".
Definition curated_dir (cfg : Config) : Path := joinpath (data_dir cfg) "curated".
Definition train_gz (cfg : Config) : Path := joinpath (raw_dir cfg) "train.gz".
Definition test_gz (cfg : Config) : Path := joinpath (raw_dir cfg) "test.gz".

(** ** The stages *)

Section Stages.
Context `{Pandas} `{Boto}.

(** *** io_utils.py *)

Definition ensure_parent_dir (path : Path) : M unit := mkdir_parents (parent path).

(** *** extract.py *)

Definition extract_sample (input_path output_path : Path) (n_rows : option nat) : M unit :=
  print (MsgReadingFrom input_path);;
  ensure_parent_dir output_path;;
  df ← read_csv input_path Gzip n_rows;
  print (MsgSampleLoaded (len df) (length (columns df)));;
  to_csv df output_path;;
  print (MsgSampleSaved output_path).

(** *** transform.py *)

Definition transform (in_path out_path : Path) : M unit :=
  let logger := setup_logging "transform" in
  log_info logger (MsgTransforming (name in_path) (name out_path));;
  (* 1. Load dataset *)
  df ← read_csv in_path Infer None;
  log_info logger (MsgLoaded (len df) (length (columns df)));;
  (* 2. Parse hour and create time-related features *)
  df ← lift (parse_hour_features df);
  (* 3. Remove duplicates *)
  let before := len df in
  let df := drop_duplicates df in
  log_info logger (MsgRemovedDuplicates (Z.of_nat before - Z.of_nat (len df)));;
  (* 4. Save the cleaned data to parquet *)
  mkdir_parents (parent out_path);;
  to_parquet df out_path;;
  log_info logger (MsgSavedCleaned out_path).

(** *** validate.py *)

Definition validate_data (in_path : Path) : M unit :=
  let logger := setup_logging "validate" in
  log_info logger (MsgValidating (name in_path));;
  (* 1. Load the transformed file *)
  df ← (if decide (suffix in_path = ".csv") then read_csv in_path Infer None
        else read_parquet in_path);
  log_info logger (MsgLoaded (len df) (length (columns df)));;
  (* 2. Basic schema checks *)
  let expected_cols := ["id"; "click"; "hour"; "banner_pos"] in
  let missing_cols := filter (λ c, c ∉ columns df) expected_cols in
  (if decide (missing_cols ≠ []) then log_warning logger (MsgMissingColumns missing_cols)
   else log_info logger MsgSchemaPassed);;
  (* 3. Null value summary *)
  let null_counts := isnull_sum df in
  let null_report := filter (λ cn : string * nat, (0 < cn.2)%nat) null_counts in
  (if decide (null_report ≠ []) then log_warning logger (MsgNullsFound null_report)
   else log_info logger MsgNoNulls);;
  (* 4. Type checks *)
  for_each ["id"; "click"] (λ col,
    if decide (col ∈ columns df) then
      s ← lift (getitem df col);
      if negb (is_numeric_dtype s) then log_warning logger (MsgNotNumeric col)
      else mret tt
    else mret tt);;
  (* 5. Unique IDs *)
  (if decide ("id" ∈ columns df) then
     ids ← lift (getitem df "id");
     let dup_ids := sum_bool (duplicated ids) in
     if decide (0 < dup_ids)%nat then log_warning logger (MsgDuplicatedIds dup_ids)
     else log_info logger MsgIdsUnique
   else mret tt);;
  log_info logger MsgValidationCompleted.

(** *** load.py *)

(** [if logger: ...] *)
Definition when_logger (logger : option Logger) (say : Logger → M unit) : M unit :=
  match logger with
  | Some lg => say lg
  | None => mret tt
  end.

Definition put_object (bucket key : string) (local_path : Path) : M unit := λ w,
  (Ok tt, {| files := files w; stdout := stdout w;
             bucket_objects := bucket_objects w ++ [(bucket, key, local_path)] |}).

Definition upload_to_s3 (local_path : Path) (bucket_name key_prefix : string)
    (logger : option Logger) : M unit :=
  if negb AWS_AVAILABLE then
    when_logger logger (λ lg, log_warning lg MsgBotoMissing)
  else
    let key := key_prefix +:+ name local_path in
    match s3_upload_file local_path bucket_name key with
    | UploadDone =>
        put_object bucket_name key local_path;;
        when_logger logger (λ lg, log_info lg (MsgUploaded (name local_path) bucket_name key))
    | UploadNoCredentials =>
        when_logger logger (λ lg, log_warning lg MsgNoCredentials)
    | UploadException e =>
        when_logger logger (λ lg, log_error lg (MsgUploadFailed e))
    end.

Definition load_to_curated (in_path out_path : Path) (logger : option Logger)
    (upload_cloud : bool) : M unit :=
  let logger := match logger with
                | None => setup_logging "load"
                | Some lg => lg
                end in
  log_info logger (MsgLoading (name in_path) (name out_path));;
  (* Load staged data *)
  df ← read_csv in_path Infer None;
  (* Save curated data *)
  mkdir_parents (parent out_path);;
  to_parquet df out_path;;
  log_info logger (MsgSavedCurated out_path (len df) (length (columns df)));;
  (* Optional cloud upload *)
  if upload_cloud then upload_to_s3 out_path "etl-demo-bucket" "curated/" (Some logger)
  else mret tt.

(** *** pipeline.py *)

Definition run_pipeline (CFG : Config) : M unit :=
  let logger := setup_logging "pipeline" in
  log_info logger MsgPipelineStart;;
  (* Step 1: Extract *)
  let raw_path := joinpath (raw_dir CFG) "train.gz" in
  let sample_path := joinpath (samples_dir CFG) "train_sample.csv" in
  log_info logger (MsgStep 1);;
  extract_sample raw_path sample_path (Some (sample_rows CFG));;
  (* Step 2: Transform *)
  let staged_path := joinpath (staged_dir CFG) "train_transformed.csv" in
  log_info logger (MsgStep 2);;
  transform sample_path staged_path;;
  (* Step 3: Validate *)
  log_info logger (MsgStep 3);;
  validate_data staged_path;;
  (* Step 4: Load *)
  let curated_path := joinpath (curated_dir CFG) "train_curated.parquet" in
  log_info logger (MsgStep 4);;
  load_to_curated staged_path curated_path (Some logger) true;;
  log_info logger MsgPipelineDone.

End Stages.

(** ** The claims' vocabulary *)

Section Vocabulary.
Context `{Pandas}.

(** The columns after [df[c] = ...]. *)
Definition add_column (c : string) (cs : list string) : list string :=
  if decide (c ∈ cs) then cs else cs ++ [c].

(** A derived time feature of a parsed value: the field of the timestamp,
    or the sentinel -1. *)
Definition time_feature (f : Z → Z) (t : cell) : cell :=
  match t with
  | CTime ns => CInt (f ns)
  | _ => CInt (-1)
  end.

(** The [hour] value of a record as [to_datetime] reads it under format [f]. *)
Definition parsed_hour (f : dt_format) (r : row) : cell :=
  to_datetime_cell f (default CNull (r !! "hour")).

(** A record with its [hour] parsed and the two features derived from it. *)
Definition with_time_features (f : dt_format) (r : row) : row :=
  <["weekday" := time_feature weekday_of_ns (parsed_hour f r)]>
    (<["hour_of_day" := time_feature hour_of_ns (parsed_hour f r)]>
       (<["hour" := parsed_hour f r]> r)).

(** The format [to_datetime] guesses for the [hour] column of a frame. *)
Definition hour_format (df : DataFrame) : dt_format :=
  guess_datetime_format (column_values df "hour").

(** The frame has an [hour] column, and two of its strings are read with
    differing UTC offsets. *)
Definition mixed_hour_offsets (df : DataFrame) : bool :=
  bool_decide ("hour" ∈ columns df) &&
  mixed_offsets (hour_format df) (column_values df "hour").

(** What step 2 of [transform] makes of a record of [df]. *)
Definition derived_record (df : DataFrame) (r : row) : row :=
  if decide ("hour" ∈ columns df) then with_time_features (hour_format df) r else r.

(** The records of [rs] that no earlier position of [rs] holds as well. *)
Definition first_occurrences (rs : list row) : list row :=
  (filter (λ ir : nat * row, ir.2 ∉ take ir.1 rs) (imap pair rs)).*2.

(** Two records agree on every column but the three the transformer writes. *)
Definition same_but_time_columns (r' r : row) : Prop :=
  ∀ c, c ≠ "hour" → c ≠ "hour_of_day" → c ≠ "weekday" → r' !! c = r !! c.

(** The world after more lines went to standard output. *)
Definition say (w : world) (lines : list output) : world :=
  {| files := files w; stdout := stdout w ++ lines;
     bucket_objects := bucket_objects w |}.

(** The world after a file was written. *)
Definition with_file (w : world) (p : Path) (f : file) : world :=
  {| files := <[p := f]> (files w); stdout := stdout w;
     bucket_objects := bucket_objects w |}.

(** The format [validate_data] takes the bytes at [p] to be: what
    [read_csv] infers for a name that ends in [.csv], and parquet for any
    other. *)
Definition validate_input_format (p : Path) : format :=
  if decide (suffix p = ".csv") then csv_format Infer p else Parquet.

(** What reading [nrows] records of the file at [p] as [fmt] gives in world
    [w], and what reading the whole file gives. *)
Definition sample_outcome (fmt : format) (nrows : option nat) (p : Path) (w : world)
    : result DataFrame :=
  (read_rows fmt nrows p w).1.

Definition load_outcome (fmt : format) (p : Path) (w : world) : result DataFrame :=
  sample_outcome fmt None p w.

(** The validator's four checks, each by itself a function of the table. *)
Definition required_columns : list string := ["id"; "click"; "hour"; "banner_pos"].
Definition numeric_columns : list string := ["id"; "click"].

Definition finding (lvl : level) (msg : message) : output := LogLine "validate" lvl msg.

Definition schema_check (df : DataFrame) : list output :=
  match filter (λ c, c ∉ columns df) required_columns with
  | [] => [finding INFO MsgSchemaPassed]
  | missing => [finding WARNING (MsgMissingColumns missing)]
  end.

Definition null_check (df : DataFrame) : list output :=
  match filter (λ cn : string * nat, (0 < cn.2)%nat) (isnull_sum df) with
  | [] => [finding INFO MsgNoNulls]
  | report => [finding WARNING (MsgNullsFound report)]
  end.

Definition type_check (df : DataFrame) : list output :=
  (λ c, finding WARNING (MsgNotNumeric c)) <$>
    filter (λ c, c ∈ columns df ∧ is_numeric_dtype (column_values df c) = false)
           numeric_columns.

Definition uniqueness_check (df : DataFrame) : list output :=
  if decide ("id" ∈ columns df) then
    match sum_bool (duplicated (column_values df "id")) with
    | O => [finding INFO MsgIdsUnique]
    | n => [finding WARNING (MsgDuplicatedIds n)]
    end
  else [].

Definition validation_report (df : DataFrame) : list output :=
  schema_check df ++ null_check df ++ type_check df ++ uniqueness_check df.

(** The lines of a validation run for a table that loaded. *)
Definition validation_lines (p : Path) (df : DataFrame) : list output :=
  [finding INFO (MsgValidating (name p));
   finding INFO (MsgLoaded (len df) (length (columns df)))]
  ++ validation_report df ++ [finding INFO MsgValidationCompleted].

Definition is_schema_finding (o : output) : bool :=
  match o with
  | LogLine _ _ (MsgMissingColumns _) | LogLine _ _ MsgSchemaPassed => true
  | _ => false
  end.

Definition is_uniqueness_finding (o : output) : bool :=
  match o with
  | LogLine _ _ (MsgDuplicatedIds _) | LogLine _ _ MsgIdsUnique => true
  | _ => false
  end.

(** The frame claim as the specification words it: every record that
    [transform] keeps has, in every column the input had and that is not a
    derived one, the value of a record of the input. *)
Definition keeps_original_values (df : DataFrame) : Prop :=
  ∀ out n, transform_frame df = Ok (out, n) →
  ∀ r' : row, r' ∈ rows out →
  ∃ r : row, r ∈ rows df ∧
    ∀ c, c ∈ columns df → c ≠ "hour_of_day" → c ≠ "weekday" → r' !! c = r !! c.

(** The example of duplicate removal as the specification words it: where
    the rows at positions 2, 5 and 7 repeat the row at position 0 and the
    table has no other repetition, [transform] takes out three rows. *)
Definition drops_three_of_eight (df : DataFrame) : Prop :=
  ∀ a0 a1 a3 a4 a6 rest,
    rows df = [a0; a1; a0; a3; a4; a0; a6; a0] ++ rest →
    NoDup (a0 :: a1 :: a3 :: a4 :: a6 :: rest) →
    ∀ out n, transform_frame df = Ok (out, n) →
      n = 3 ∧ Z.of_nat (len out) = Z.of_nat (len df) - 3.

End Vocabulary.

(** The idempotence claim as the specification words it, of the operation
    that the code has, from file to file: wherever [transform] returns, a
    second run on the file it wrote returns as well, removes no row and
    leaves the file as it is. *)
Definition transform_reappliable `{Pandas} : Prop :=
  ∀ in_path out_path w w1,
    transform in_path out_path w = (Ok tt, w1) →
    ∃ w2, transform out_path out_path w1 = (Ok tt, w2) ∧
          files w2 !! out_path = files w1 !! out_path ∧
          LogLine "transform" INFO (MsgRemovedDuplicates 0) ∈ stdout w2.

(** The configuration claim as the specification words it: the required
    columns are an input of validation, so two runs over the same table can
    be given different lists and then report differently on its schema. *)
Definition required_columns_overridable : Prop :=
  ∃ (P : Pandas) p1 w1 p2 w2 df lines1 lines2,
    @load_outcome P (validate_input_format p1) p1 w1 = Ok df ∧
    @load_outcome P (validate_input_format p2) p2 w2 = Ok df ∧
    @validate_data P p1 w1 = (Ok tt, say w1 lines1) ∧
    @validate_data P p2 w2 = (Ok tt, say w2 lines2) ∧
    filter (λ o, is_schema_finding o = true) lines1 ≠
    filter (λ o, is_schema_finding o = true) lines2.

(** ** Sample data *)

(** A pandas that knows no string or float format for a timestamp and
    raises on bytes of another format: integers and timestamps go through
    [to_datetime], everything else is coerced to NaT. *)
Definition numeric_pandas : Pandas := {|
  dt_format := unit;
  guess_datetime_format := λ _, tt;
  parse_datetime_string := λ _ _, None;
  utc_offset := λ _ _, None;
  mixed_offsets_error := ValueError;
  parse_datetime_float := λ _, None;
  csv_text := λ df, df;
  misread := λ _ _ _ _, None;
|}.

(** An installation without boto3. *)
Definition no_boto : Boto := {|
  AWS_AVAILABLE := false;
  s3_upload_file := λ _ _ _, UploadNoCredentials;
|}.

Definition click_row (id click : Z) (hour : cell) (banner_pos : Z) : row :=
  {[ "id" := CInt id; "click" := CInt click; "hour" := hour;
     "banner_pos" := CInt banner_pos ]}.

Definition click_columns : list string := ["id"; "click"; "hour"; "banner_pos"].

(** One record, its [hour] in the data set's YYMMDDHH integer coding. *)
Definition one_click : DataFrame :=
  {| columns := click_columns; rows := [click_row 1 0 (CInt 14102100) 0] |}.

(** Eight records; those at positions 2, 5 and 7 repeat the one at
    position 0, and the one at position 4 has an unreadable [hour]. *)
Definition eight_clicks : DataFrame :=
  {| columns := click_columns;
     rows := [click_row 1 0 (CInt 14102100) 0; click_row 2 1 (CInt 14102101) 1;
              click_row 1 0 (CInt 14102100) 0; click_row 3 0 (CInt 14102102) 0;
              click_row 4 0 (CStr "n/a") 1; click_row 1 0 (CInt 14102100) 0;
              click_row 5 1 (CInt 14102103) 0; click_row 1 0 (CInt 14102100) 0] |}.

(** Eight records; those at positions 2, 5 and 7 repeat the one at
    position 0, and those at positions 3 and 4 differ in their [hour] only,
    which is unreadable in both. *)
Definition eight_unread_clicks : DataFrame :=
  {| columns := click_columns;
     rows := [click_row 1 0 (CInt 14102100) 0; click_row 2 1 (CInt 14102101) 1;
              click_row 1 0 (CInt 14102100) 0; click_row 3 0 (CStr "unknown") 0;
              click_row 3 0 (CStr "missing") 0; click_row 1 0 (CInt 14102100) 0;
              click_row 5 1 (CInt 14102103) 0; click_row 1 0 (CInt 14102100) 0] |}.



(** The same without the [hour] column. *)
Definition eight_untimed_clicks : DataFrame :=
  {| columns := ["id"; "click"; "banner_pos"];
     rows := delete "hour" <$> rows eight_clicks |}.

(** Four records without a [click] column, their ids 1, 1, 2 and 3. *)
Definition four_ids : DataFrame :=
  {| columns := ["id"; "hour"; "banner_pos"];
     rows := (λ id, {[ "id" := CInt id; "hour" := CInt 14102100;
                       "banner_pos" := CInt 0 ]}) <$> [1; 1; 2; 3] |}.

Definition staged_parquet : Path := ["data"; "staged"; "clicks.parquet"].
Definition staged_csv : Path := ["data"; "staged"; "clicks.csv"].
Definition curated_parquet : Path := ["data"; "curated"; "clicks.parquet"].

(** A world with [four_ids] staged, as parquet and as text. *)
Definition staged_world : world :=
  {| files := {[ staged_parquet := {| file_format := Parquet; file_frame := four_ids |};
                 staged_csv := {| file_format := CsvText; file_frame := four_ids |} ]};
     stdout := [];
     bucket_objects := [] |}.

Definition sample_config : Config := {| project_root := ["repo"]; sample_rows := 1000 |}.

(** A world with the raw archive in place, holding [eight_clicks]. *)
Definition raw_world : world :=
  {| files := {[ joinpath (raw_dir sample_config) "train.gz" :=
                   {| file_format := GzipCsvText; file_frame := eight_clicks |} ]};
     stdout := [];
     bucket_objects := [] |}.

(** ** The rest of the code *)

(** *** config.py *)

(** [Config.ensure_dirs] *)
Definition ensure_dirs (cfg : Config) : M unit :=
  for_each [raw_dir cfg; samples_dir cfg; staged_dir cfg; curated_dir cfg] mkdir_parents.

(** *** extract.py, run as a script *)

Section Scripts.
Context `{Pandas}.

(** The module has two [__main__] blocks, and a run goes through both. *)
Definition extract_main (CFG : Config) : M unit :=
  ensure_dirs CFG;;
  extract_sample (train_gz CFG) (joinpath (samples_dir CFG) "train_sample.csv")
    (Some (sample_rows CFG));;
  (* the second block *)
  extract_sample (train_gz CFG) (joinpath (samples_dir CFG) "train_sample.csv")
    (Some (sample_rows CFG));;
  extract_sample (test_gz CFG) (joinpath (samples_dir CFG) "test_sample.csv")
    (Some (sample_rows CFG)).

End Scripts.

(** *** logging_config.py *)

(** The loggers of the process, as the logging module keeps them: by name
    (no name is the root logger), each with its level and its handlers. *)
Module LoggingConfig.

Inductive handler : Type :=
  | StreamHandler (stream fmt datefmt : string).

#[global] Instance handler_eq_dec : EqDecision handler.
Proof. solve_decision. Defined.

Record logger : Type := mkLogger {
  level : Z;
  handlers : list handler;
}.

Abbreviation loggers := (gmap (option string) logger).

Definition NOTSET : Z := 0.
Definition WARNING : Z := 30.

(** [logging.getLogger(name)]: the logger of that name, made on first use
    without handlers; the root logger starts at WARNING, the others unset. *)
Definition getLogger (name : option string) (reg : loggers) : logger :=
  match reg !! name with
  | Some lg => lg
  | None => {| level := match name with None => WARNING | Some _ => NOTSET end;
               handlers := [] |}
  end.

(** [getattr(logging, level.upper(), logging.INFO)] as [setLevel] takes it:
    a level, or nothing where the attribute of that name is no level and
    [setLevel] raises. *)
Class Levels : Type := {
  level_named : string → option Z;
}.

Definition stdout_handler : handler :=
  StreamHandler "stdout" "%(asctime)s | %(levelname)-8s | %(name)s | %(message)s"
    "%Y-%m-%d %H:%M:%S".

(** [setup_logging(name, level)], on the loggers of the process; nothing
    when [setLevel] raises. *)
Definition setup_logging `{Levels} (name : option string) (lvl : string) (reg : loggers)
    : option loggers :=
  let lg := getLogger name reg in
  if decide (handlers lg ≠ []) then Some (<[name := lg]> reg)
  else
    match level_named lvl with
    | Some n => Some (<[name := {| level := n; handlers := handlers lg ++ [stdout_handler] |}]> reg)
    | None => None
    end.

(** A run of calls, each on the loggers the one before left. *)
Fixpoint setup_all `{Levels} (calls : list (option string * string)) (reg : loggers)
    : option loggers :=
  match calls with
  | [] => Some reg
  | (name, lvl) :: calls' =>
      match setup_logging name lvl reg with
      | Some reg' => setup_all calls' reg'
      | None => None
      end
  end.

End LoggingConfig.

(** ** More vocabulary *)

(** A program changes no file outside [paths]. *)
Definition touches_only {A : Type} (paths : list Path) (m : M A) : Prop :=
  ∀ w p, p ∉ paths → files (m w).2 !! p = files w !! p.

(** A program leaves the remote store as it is. *)
Definition uploads_nothing {A : Type} (m : M A) : Prop :=
  ∀ w, bucket_objects (m w).2 = bucket_objects w.

(** A program uploads nothing, or returns having uploaded just [obj]. *)
Definition uploads_at_most (obj : string * string * Path) (m : M unit) : Prop :=
  ∀ w,
    bucket_objects (m w).2 = bucket_objects w ∨
    ((m w).1 = Ok tt ∧ bucket_objects (m w).2 = bucket_objects w ++ [obj]).

Definition is_null_finding (o : output) : bool :=
  match o with
  | LogLine _ _ (MsgNullsFound _) | LogLine _ _ MsgNoNulls => true
  | _ => false
  end.

(** How many values of column [c] are missing. *)
Definition null_count (df : DataFrame) (c : string) : nat :=
  length (filter (λ v, is_null v = true) (column_values df c)).

(** The lines of [transform] on a frame of [nrows] rows and [ncols]
    columns, [n] of the rows removed. *)
Definition transform_lines (in_path out_path : Path) (nrows ncols : nat) (n : Z)
    : list output :=
  [LogLine "transform" INFO (MsgTransforming (name in_path) (name out_path));
   LogLine "transform" INFO (MsgLoaded nrows ncols);
   LogLine "transform" INFO (MsgRemovedDuplicates n);
   LogLine "transform" INFO (MsgSavedCleaned out_path)].

(** The levels of the logging module by their names in capitals; any other
    name is taken for no attribute, and INFO stands in. *)
Definition standard_levels : LoggingConfig.Levels := {|
  LoggingConfig.level_named := λ lvl,
    Some (if decide (lvl = "DEBUG") then 10
          else if decide (lvl = "WARNING") then 30
          else if decide (lvl = "ERROR") then 40
          else if decide (lvl = "CRITICAL") then 50
          else 20);
|}.

(** A world without files. *)
Definition empty_world : world := {| files := ∅; stdout := []; bucket_objects := [] |}.

(** Three records, two of them without an [hour]. *)
Definition gappy_clicks : DataFrame :=
  {| columns := click_columns;
     rows := [click_row 1 0 CNull 0; click_row 2 1 (CInt 14102101) 1;
              click_row 3 0 CNull 0] |}.

(** A world with [gappy_clicks] staged as parquet. *)
Definition gappy_world : world :=
  {| files := {[ staged_parquet := {| file_format := Parquet; file_frame := gappy_clicks |} ]};
     stdout := [];
     bucket_objects := [] |}.

(** A process that sets up four loggers, one of them twice. *)
Definition logger_calls : list (option string * string) :=
  [(Some "transform", "INFO"); (Some "validate", "INFO");
   (Some "transform", "DEBUG"); (Some "pipeline", "INFO"); (None, "WARNING")].

(** * Properties *)

(** ** Series and frame operations *)

Lemma hour_of_ns_range ns : 0 ≤ hour_of_ns ns ≤ 23.
Proof. unfold hour_of_ns. pose proof (Z.mod_pos_bound (ns / NS_PER_HOUR) 24). lia. Qed.

Lemma weekday_of_ns_range ns : 0 ≤ weekday_of_ns ns ≤ 6.
Proof. unfold weekday_of_ns. pose proof (Z.mod_pos_bound (ns / NS_PER_DAY + 3) 7). lia. Qed.

Lemma getitem_present df c : c ∈ columns df → getitem df c = Ok (column_values df c).
Proof. intros Hc. unfold getitem. by rewrite decide_True. Qed.

(** Assigning a column computed record by record. *)
Lemma setitem_by_row df c (g : row → cell) :
  setitem df c (g <$> rows df) =
  Ok {| columns := add_column c (columns df);
        rows := (λ r : row, <[c := g r]> r) <$> rows df |}.
Proof.
  unfold setitem, len. rewrite length_fmap, decide_True by done.
  by rewrite zip_with_fmap_r, zip_with_diag.
Qed.

Lemma add_column_present c cs : c ∈ cs → add_column c cs = cs.
Proof. intros Hc. unfold add_column. by rewrite decide_True. Qed.

Lemma elem_of_add_column c d cs : c ∈ add_column d cs ↔ c ∈ cs ∨ c = d.
Proof.
  unfold add_column. case_decide.
  - split; [by left|]. by intros [?| ->].
  - rewrite elem_of_app, list_elem_of_singleton. tauto.
Qed.

Lemma dt_field_datetimes (f : Z → Z) (s : list cell) :
  Forall (λ c, is_datetimelike c = true) s →
  dt_field f s = Ok ((λ c, match c with CTime ns => Some (f ns) | _ => None end) <$> s).
Proof.
  intros Hs. unfold dt_field.
  assert (forallb is_datetimelike s = true) as ->; [|done].
  apply forallb_forall. intros c Hc. rewrite Forall_forall in Hs.
  apply Hs. by apply list_elem_of_In.
Qed.

Lemma astype_int_filled (s : list (option Z)) :
  astype_int (fillna (-1) s) = Ok ((λ x, CInt (default (-1) x)) <$> s).
Proof.
  induction s as [|x s IH]; [done|].
  change (fillna (-1) (x :: s)) with
    (match x with Some n => Some n | None => Some (-1) end :: fillna (-1) s).
  destruct x as [n|]; simpl; by rewrite IH.
Qed.

(** Deriving a feature column from a parsed [hour] column and storing it
    as column [c]: no step raises, and the frame goes on to [k]. *)
Lemma derive_feature_column {A} (f : Z → Z) (c : string) (df : DataFrame)
    (k : DataFrame → result A) :
  "hour" ∈ columns df →
  Forall (λ r : row, is_datetimelike (default CNull (r !! "hour")) = true) (rows df) →
  (hour ← getitem df "hour";
   h ← dt_field f hour;
   v ← astype_int (fillna (-1) h);
   df' ← setitem df c v;
   k df') =
  k {| columns := add_column c (columns df);
       rows := (λ r : row, <[c := time_feature f (default CNull (r !! "hour"))]> r)
                 <$> rows df |}.
Proof.
  intros Hhour Hdt. rewrite getitem_present by done. cbn [mbind result_bind].
  rewrite dt_field_datetimes by (unfold column_values; by apply Forall_fmap).
  cbn [mbind result_bind]. rewrite astype_int_filled. cbn [mbind result_bind].
  unfold column_values. rewrite <- !list_fmap_compose.
  rewrite setitem_by_row. cbn [mbind result_bind]. do 2 f_equal.
  apply list_fmap_ext. intros i r _. simpl. by destruct (default CNull (r !! "hour")).
Qed.

(** The same when storing the column is the last step. *)
Lemma derive_last_feature_column (f : Z → Z) (c : string) (df : DataFrame) :
  "hour" ∈ columns df →
  Forall (λ r : row, is_datetimelike (default CNull (r !! "hour")) = true) (rows df) →
  (hour ← getitem df "hour";
   h ← dt_field f hour;
   v ← astype_int (fillna (-1) h);
   setitem df c v) =
  Ok {| columns := add_column c (columns df);
        rows := (λ r : row, <[c := time_feature f (default CNull (r !! "hour"))]> r)
                  <$> rows df |}.
Proof.
  intros Hhour Hdt.
  rewrite <- (derive_feature_column f c df Ok Hhour Hdt).
  rewrite getitem_present by done. cbn [mbind result_bind].
  destruct (dt_field f (column_values df "hour")) as [h|e]; [|done].
  cbn [mbind result_bind].
  destruct (astype_int (fillna (-1) h)) as [v|e]; [|done].
  cbn [mbind result_bind]. by destruct (setitem df c v).
Qed.

(** ** Duplicate removal *)

Lemma elem_of_drop_seen seen rs r :
  r ∈ drop_seen seen rs ↔ r ∈ rs ∧ r ∉ seen.
Proof.
  revert seen. induction rs as [|x rs IH]; intros seen; simpl.
  - rewrite elem_of_nil. tauto.
  - case_decide as Hx.
    + rewrite IH, elem_of_cons. split; [tauto|].
      intros [[->|?] ?]; tauto.
    + rewrite !elem_of_cons, IH, elem_of_cons.
      destruct (decide (r = x)) as [->|]; tauto.
Qed.

Lemma drop_seen_sublist seen rs : drop_seen seen rs `sublist_of` rs.
Proof.
  revert seen. induction rs as [|x rs IH]; intros seen; simpl; [done|].
  case_decide; [by apply sublist_cons|by apply sublist_skip].
Qed.

Lemma drop_seen_NoDup seen rs : NoDup (drop_seen seen rs).
Proof.
  revert seen. induction rs as [|x rs IH]; intros seen; simpl; [constructor|].
  case_decide; [done|]. constructor; [|done].
  rewrite elem_of_drop_seen, elem_of_cons. tauto.
Qed.

(** Nothing goes when no record repeats. *)
Lemma drop_seen_distinct seen rs :
  NoDup rs → (∀ r, r ∈ rs → r ∉ seen) → drop_seen seen rs = rs.
Proof.
  revert seen. induction rs as [|x rs IH]; intros seen Hnd Hseen; simpl; [done|].
  apply NoDup_cons in Hnd as [Hx Hnd].
  rewrite decide_False by (apply Hseen; left).
  f_equal. apply IH; [done|]. intros r Hr. rewrite elem_of_cons.
  intros [->|Hin]; [done|]. by apply (Hseen r); [right|].
Qed.

Lemma drop_seen_skip seen x rs :
  x ∈ seen → drop_seen seen (x :: rs) = drop_seen seen rs.
Proof. intros Hx. simpl. by rewrite decide_True. Qed.

Lemma drop_seen_keep seen x rs :
  x ∉ seen → drop_seen seen (x :: rs) = x :: drop_seen (x :: seen) rs.
Proof. intros Hx. simpl. by rewrite decide_False. Qed.

(** A record is kept where no earlier position, and nothing seen before,
    holds it. *)
Lemma drop_seen_first_occurrences seen pre rs :
  (∀ r, r ∈ seen ↔ r ∈ pre) →
  drop_seen seen rs =
  (filter (λ ir : nat * row, ir.2 ∉ take ir.1 (pre ++ rs))
          (imap (λ i r, (length pre + i, r)%nat) rs)).*2.
Proof.
  revert seen pre. induction rs as [|x rs IH]; intros seen pre Hseen; [done|].
  cbn [drop_seen imap]. rewrite filter_cons. cbn [fst snd].
  rewrite Nat.add_0_r, take_app_length.
  assert (imap ((λ i r, (length pre + i, r)%nat) ∘ S) rs =
          imap (λ i r, (length (pre ++ [x]) + i, r)%nat) rs) as ->.
  { apply imap_ext. intros i r _. simpl. rewrite length_app. simpl. f_equal. lia. }
  replace (pre ++ x :: rs) with ((pre ++ [x]) ++ rs) by by rewrite <- app_assoc.
  destruct (decide (x ∈ seen)) as [Hx|Hx].
  - rewrite decide_False by (rewrite <- Hseen; tauto).
    apply IH. intros r. rewrite elem_of_app, list_elem_of_singleton, <- Hseen.
    split; [tauto|]. by intros [?| ->].
  - rewrite decide_True by by rewrite <- Hseen.
    rewrite fmap_cons. cbn [snd]. f_equal.
    apply IH. intros r. rewrite elem_of_cons, elem_of_app, list_elem_of_singleton, <- Hseen.
    tauto.
Qed.

Lemma drop_seen_first rs : drop_seen [] rs = first_occurrences rs.
Proof. by rewrite (drop_seen_first_occurrences [] [] rs). Qed.

(** A sublist of an image is the image of a sublist. *)
Lemma sublist_fmap_inv {A B} (g : A → B) (l : list B) (k : list A) :
  l `sublist_of` (g <$> k) → ∃ k', k' `sublist_of` k ∧ l = g <$> k'.
Proof.
  revert l. induction k as [|a k IH]; intros l Hl; simpl in Hl.
  - apply sublist_nil_r in Hl as ->. by exists [].
  - apply sublist_cons_r in Hl as [Hl|(l' & -> & Hl)].
    + destruct (IH _ Hl) as (k' & ? & ->). exists k'. split; [by apply sublist_cons|done].
    + destruct (IH _ Hl) as (k' & ? & ->). exists (a :: k'). split; [by apply sublist_skip|done].
Qed.

(** ** The transformer, on frames *)

Section TransformerFacts.
Context `{Pandas}.

Lemma to_datetime_cell_datetimelike f c : is_datetimelike (to_datetime_cell f c) = true.
Proof.
  destruct c as [|n|b|s|ns]; simpl; try done.
  - by case_bool_decide.
  - by destruct (parse_datetime_float b).
  - by destruct (parse_datetime_string f s).
Qed.

(** A value that is a timestamp or missing already is read as itself,
    whatever the format. *)
Lemma to_datetime_cell_fixed f c : is_datetimelike c = true → to_datetime_cell f c = c.
Proof. by destruct c. Qed.



Lemma with_time_features_hour f (r : row) :
  with_time_features f r !! "hour" = Some (parsed_hour f r).
Proof. unfold with_time_features. by simplify_map_eq. Qed.

Lemma with_time_features_hour_of_day f (r : row) :
  with_time_features f r !! "hour_of_day" = Some (time_feature hour_of_ns (parsed_hour f r)).
Proof. unfold with_time_features. by simplify_map_eq. Qed.

Lemma with_time_features_weekday f (r : row) :
  with_time_features f r !! "weekday" = Some (time_feature weekday_of_ns (parsed_hour f r)).
Proof. unfold with_time_features. by simplify_map_eq. Qed.

Lemma with_time_features_other f (r : row) : same_but_time_columns (with_time_features f r) r.
Proof. intros c ? ? ?. unfold with_time_features. by simplify_map_eq. Qed.

(** Deriving the features of a record that has them changes nothing. *)
Lemma with_time_features_again f g (r : row) :
  with_time_features g (with_time_features f r) = with_time_features f r.
Proof.
  assert (parsed_hour g (with_time_features f r) = parsed_hour f r) as Hp.
  { unfold parsed_hour at 1. rewrite with_time_features_hour. simpl.
    apply to_datetime_cell_fixed, to_datetime_cell_datetimelike. }
  unfold with_time_features at 1. rewrite Hp.
  apply map_eq. intros c.
  destruct (decide (c = "weekday")) as [->|];
    [by rewrite lookup_insert_eq, with_time_features_weekday|].
  rewrite lookup_insert_ne by done.
  destruct (decide (c = "hour_of_day")) as [->|];
    [by rewrite lookup_insert_eq, with_time_features_hour_of_day|].
  rewrite lookup_insert_ne by done.
  destruct (decide (c = "hour")) as [->|];
    [by rewrite lookup_insert_eq, with_time_features_hour|].
  by rewrite lookup_insert_ne.
Qed.

Lemma mixed_hour_offsets_hour df :
  "hour" ∈ columns df →
  mixed_hour_offsets df = mixed_offsets (hour_format df) (column_values df "hour").
Proof. intros Hhour. unfold mixed_hour_offsets. by rewrite bool_decide_eq_true_2. Qed.

Lemma mixed_hour_offsets_no_hour df : "hour" ∉ columns df → mixed_hour_offsets df = false.
Proof. intros Hhour. unfold mixed_hour_offsets. by rewrite bool_decide_eq_false_2. Qed.

(** Offsets are mixed only where two strings of the column are both read,
    and with differing offsets: a value that cannot be read has no part in
    it. *)
Lemma mixed_offsets_readable f s :
  mixed_offsets f s = true →
  ∃ x y, CStr x ∈ s ∧ CStr y ∈ s ∧
         is_Some (parse_datetime_string f x) ∧ is_Some (parse_datetime_string f y) ∧
         utc_offset f x ≠ utc_offset f y.
Proof.
  unfold mixed_offsets. intros Hmixed.
  assert (∀ o, o ∈ carried_offsets f s →
            ∃ x, CStr x ∈ s ∧ is_Some (parse_datetime_string f x) ∧ utc_offset f x = o) as Hsrc.
  { intros o Ho. unfold carried_offsets in Ho. apply list_elem_of_omap in Ho as (c & Hc & Hoc).
    destruct c as [| | |x|]; try done.
    destruct (parse_datetime_string f x) as [t|] eqn:Hx; [|done].
    simpl in Hoc. injection Hoc as <-. exists x. by rewrite Hx. }
  destruct (carried_offsets f s) as [|o os]; [done|].
  apply negb_true_iff in Hmixed.
  assert (¬ Forall (λ o', o' = o) os) as Hall.
  { intros Hall. apply not_true_iff_false in Hmixed. apply Hmixed. apply forallb_forall.
    intros o' Ho'. apply bool_decide_eq_true_2.
    rewrite Forall_forall in Hall. apply Hall. by apply list_elem_of_In. }
  apply not_Forall_Exists in Hall; [|intros ?; apply _].
  apply Exists_exists in Hall as (o' & Ho' & Hne).
  destruct (Hsrc o) as (x & ? & ? & Hx); [by left|].
  destruct (Hsrc o') as (y & ? & ? & Hy); [by right|].
  exists x, y. split_and!; try done. congruence.
Qed.

(** A column without strings mixes nothing. *)
Lemma mixed_offsets_no_strings f s :
  Forall (λ c, ∀ x, c ≠ CStr x) s → mixed_offsets f s = false.
Proof.
  intros Hs. destruct (mixed_offsets f s) eqn:Hmixed; [|done].
  apply mixed_offsets_readable in Hmixed as (x & _ & Hx & _).
  rewrite Forall_forall in Hs. by destruct (Hs _ Hx x).
Qed.

(** Step 2 on a frame whose [hour] column mixes offsets: it raises. *)
Lemma parse_hour_features_mixed df :
  mixed_hour_offsets df = true → parse_hour_features df = Err mixed_offsets_error.
Proof.
  unfold mixed_hour_offsets. intros [Hhour Hmixed]%andb_true_iff.
  apply bool_decide_eq_true_1 in Hhour.
  unfold parse_hour_features. rewrite decide_True by done.
  rewrite getitem_present by done. cbn [mbind result_bind].
  unfold to_datetime_coerce. fold (hour_format df). by rewrite Hmixed.
Qed.

(** Step 2 on a frame with an [hour] column that mixes no offsets: it does
    not raise, and works record by record. *)
Lemma parse_hour_features_hour df :
  "hour" ∈ columns df →
  mixed_hour_offsets df = false →
  parse_hour_features df =
  Ok {| columns := add_column "weekday" (add_column "hour_of_day" (columns df));
        rows := with_time_features (hour_format df) <$> rows df |}.
Proof.
  intros Hhour Hmixed. rewrite mixed_hour_offsets_hour in Hmixed by done.
  unfold parse_hour_features. rewrite decide_True by done.
  rewrite getitem_present by done. cbn [mbind result_bind].
  unfold to_datetime_coerce. fold (hour_format df). rewrite Hmixed.
  cbn [mbind result_bind]. unfold column_values at 1.
  rewrite <- list_fmap_compose, setitem_by_row. cbn [mbind result_bind].
  rewrite add_column_present by done.
  fold (hour_format df). set (f := hour_format df).
  unfold dt_hour, dt_weekday.
  rewrite (derive_feature_column hour_of_ns "hour_of_day"); cbn [columns rows]; [|done|].
  2:{ apply Forall_fmap, Forall_true. intros r. simpl. rewrite lookup_insert_eq.
      apply to_datetime_cell_datetimelike. }
  rewrite derive_last_feature_column; cbn [columns rows].
  - f_equal. f_equal. rewrite <- !list_fmap_compose.
    apply list_fmap_ext. intros i r _. simpl.
    unfold with_time_features, parsed_hour. by simplify_map_eq.
  - rewrite elem_of_add_column. by left.
  - rewrite <- list_fmap_compose. apply Forall_fmap, Forall_true. intros r. simpl.
    simplify_map_eq. apply to_datetime_cell_datetimelike.
Qed.

Lemma parse_hour_features_no_hour df :
  "hour" ∉ columns df → parse_hour_features df = Ok df.
Proof. intros Hhour. unfold parse_hour_features. by rewrite decide_False. Qed.

(** Step 2 raises for mixed offsets only. *)
Lemma parse_hour_features_total df :
  mixed_hour_offsets df = false →
  ∃ df1, parse_hour_features df = Ok df1 ∧ len df1 = len df.
Proof.
  intros Hmixed.
  destruct (decide ("hour" ∈ columns df)) as [Hhour|Hhour].
  - eexists. split; [by apply parse_hour_features_hour|].
    unfold len. cbn [rows]. by rewrite length_fmap.
  - exists df. split; [by apply parse_hour_features_no_hour|done].
Qed.

End TransformerFacts.

(** ** The transformer's contract *)

Section TransformerContract.
Context `{Pandas}.

(** [transform] on frames raises where the [hour] column mixes offsets. *)
Lemma transform_frame_mixed df :
  mixed_hour_offsets df = true → transform_frame df = Err mixed_offsets_error.
Proof.
  intros Hmixed. unfold transform_frame. by rewrite parse_hour_features_mixed.
Qed.

(** Anywhere else it returns the first occurrences of the derived records
    and counts what it dropped. *)
Lemma transform_frame_total df :
  mixed_hour_offsets df = false →
  ∃ out, transform_frame df = Ok (out, Z.of_nat (len df) - Z.of_nat (len out)) ∧
         rows out = drop_seen [] (derived_record df <$> rows df) ∧
         columns out =
           if decide ("hour" ∈ columns df)
           then add_column "weekday" (add_column "hour_of_day" (columns df))
           else columns df.
Proof.
  intros Hmixed. unfold transform_frame.
  destruct (decide ("hour" ∈ columns df)) as [Hhour|Hhour].
  - rewrite parse_hour_features_hour by done. cbn [mbind result_bind].
    eexists. split_and!.
    + unfold len at 1. cbn [rows]. rewrite length_fmap. reflexivity.
    + cbn [drop_duplicates rows]. f_equal.
      apply list_fmap_ext. intros i r _. unfold derived_record. by rewrite decide_True.
    + done.
  - rewrite parse_hour_features_no_hour by done. cbn [mbind result_bind].
    eexists. split_and!; [reflexivity| |done].
    cbn [drop_duplicates rows]. f_equal.
    rewrite <- (list_fmap_id (rows df)) at 1.
    apply list_fmap_ext. intros i r _. unfold derived_record. by rewrite decide_False.
Qed.

Lemma transform_frame_returns df out n :
  transform_frame df = Ok (out, n) → mixed_hour_offsets df = false.
Proof.
  intros Hout. destruct (mixed_hour_offsets df) eqn:Hmixed; [|done].
  by rewrite transform_frame_mixed in Hout.
Qed.

Lemma derived_record_other df (r : row) : same_but_time_columns (derived_record df r) r.
Proof.
  unfold derived_record. case_decide; [apply with_time_features_other|done].
Qed.

(** C1, as amended: in every row that [transform] keeps, every column other
    than [hour], [hour_of_day] and [weekday] has the value it had in the
    input row; when the table has an [hour] column, its value in a kept row
    is the input value as [to_datetime] reads it (the timestamp, or null
    where it cannot be read); when the table has no [hour] column, the kept
    rows are input rows as they were.  (There are kept rows unless the
    [hour] column mixes UTC offsets, where [transform] raises.) *)
Theorem transform_keeps_other_columns df :
  if mixed_hour_offsets df then transform_frame df = Err mixed_offsets_error
  else
    ∃ out n kept,
      transform_frame df = Ok (out, n) ∧
      kept `sublist_of` rows df ∧
      Forall2 same_but_time_columns (rows out) kept ∧
      if decide ("hour" ∈ columns df)
      then Forall2 (λ r' r : row, r' !! "hour" = Some (parsed_hour (hour_format df) r))
                   (rows out) kept
      else rows out = kept.
Proof.
  destruct (mixed_hour_offsets df) eqn:Hmixed; [by apply transform_frame_mixed|].
  destruct (transform_frame_total df Hmixed) as (out & Hout & Hrows & _).
  destruct (sublist_fmap_inv (derived_record df) (rows out) (rows df)) as (kept & Hkept & Heq).
  { rewrite Hrows. apply drop_seen_sublist. }
  exists out, (Z.of_nat (len df) - Z.of_nat (len out)), kept.
  split_and!; [done..| |].
  - rewrite Heq. apply Forall2_fmap_l, Forall_Forall2_diag, Forall_true.
    intros r. apply derived_record_other.
  - rewrite Heq. unfold derived_record. case_decide.
    + apply Forall2_fmap_l, Forall_Forall2_diag, Forall_true.
      intros r. apply with_time_features_hour.
    + rewrite <- (list_fmap_id kept) at 2. by apply list_fmap_ext.
Qed.


(** A second pass derives the records it is given. *)
Lemma derived_record_again df out :
  rows out = drop_seen [] (derived_record df <$> rows df) →
  ("hour" ∈ columns out → "hour" ∈ columns df) →
  derived_record out <$> rows out = rows out.
Proof.
  intros Hrows Hhour. rewrite <- (list_fmap_id (rows out)) at 2.
  apply Forall_fmap_ext_1, Forall_forall. intros r' Hr'.
  rewrite Hrows, elem_of_drop_seen, list_elem_of_fmap in Hr'.
  destruct Hr' as [(r & -> & _) _].
  unfold derived_record at 1. case_decide as Hout; [|done].
  unfold derived_record. rewrite decide_True by auto.
  apply with_time_features_again.
Qed.

(** The table that the transformer returns mixes no offsets: its [hour]
    column holds no string. *)
Lemma transform_frame_output_unmixed df out n :
  transform_frame df = Ok (out, n) → mixed_hour_offsets out = false.
Proof.
  intros Hout. pose proof (transform_frame_returns _ _ _ Hout) as Hmixed.
  destruct (transform_frame_total df Hmixed) as (out' & Hout' & Hrows & Hcols).
  assert (out' = out) as -> by congruence.
  destruct (decide ("hour" ∈ columns out)) as [Hhour|Hhour];
    [|by apply mixed_hour_offsets_no_hour].
  rewrite mixed_hour_offsets_hour by done. apply mixed_offsets_no_strings.
  unfold column_values. apply Forall_fmap, Forall_forall. intros r' Hr' x.
  rewrite Hrows, elem_of_drop_seen, list_elem_of_fmap in Hr'.
  destruct Hr' as [(r & -> & _) _]. simpl.
  assert ("hour" ∈ columns df) as Hin.
  { rewrite Hcols in Hhour. destruct (decide ("hour" ∈ columns df)); auto. }
  unfold derived_record. rewrite decide_True by done.
  rewrite with_time_features_hour. simpl. intros Heq.
  pose proof (to_datetime_cell_datetimelike (hour_format df) (default CNull (r !! "hour")))
    as Hlike.
  fold (parsed_hour (hour_format df) r) in Hlike. by rewrite Heq in Hlike.
Qed.

(** The transformer applied to its own output table returns that table
    and removes nothing. *)
Lemma transform_frame_again df out n :
  transform_frame df = Ok (out, n) → transform_frame out = Ok (out, 0).
Proof.
  intros Hfirst. pose proof (transform_frame_returns _ _ _ Hfirst) as Hmixed.
  destruct (transform_frame_total df Hmixed) as (out' & Hout & Hrows & Hcols).
  assert (out' = out) as -> by congruence.
  destruct (transform_frame_total out (transform_frame_output_unmixed _ _ _ Hfirst))
    as (out2 & Hout2 & Hrows2 & Hcols2).
  assert ("hour" ∈ columns out → "hour" ∈ columns df) as Hhour.
  { rewrite Hcols. destruct (decide ("hour" ∈ columns df)); auto. }
  rewrite (derived_record_again df out Hrows Hhour) in Hrows2.
  rewrite drop_seen_distinct in Hrows2;
    [|rewrite Hrows; apply drop_seen_NoDup|intros; apply not_elem_of_nil].
  assert (columns out2 = columns out) as Hcols2'.
  { rewrite Hcols2. destruct (decide ("hour" ∈ columns out)) as [Hh|Hh]; [|done].
    rewrite Hcols, decide_True by auto.
    set (cs := add_column "weekday" (add_column "hour_of_day" (columns df))).
    assert ("hour_of_day" ∈ cs) by (unfold cs; rewrite !elem_of_add_column; auto).
    assert ("weekday" ∈ cs) by (unfold cs; rewrite !elem_of_add_column; auto).
    by rewrite (add_column_present "hour_of_day"), add_column_present. }
  assert (out2 = out) as ->.
  { destruct out, out2; simpl in *; congruence. }
  rewrite Hout2. do 2 f_equal. lia.
Qed.

(** Records that differ in [hour] only, and are read to the same value
    there, are the same record once the features are derived. *)
Lemma derived_record_merges df (r1 r2 : row) :
  "hour" ∈ columns df →
  delete "hour" r1 = delete "hour" r2 →
  parsed_hour (hour_format df) r1 = parsed_hour (hour_format df) r2 →
  derived_record df r1 = derived_record df r2.
Proof.
  intros Hhour Hrest Hparsed. unfold derived_record. rewrite !decide_True by done.
  unfold with_time_features. rewrite Hparsed.
  set (t := parsed_hour (hour_format df) r2).
  assert (<["hour" := t]> r1 = <["hour" := t]> r2) as Hsame; [|by rewrite Hsame].
  by rewrite <- (insert_delete_eq r1), <- (insert_delete_eq r2), Hrest.
Qed.

(** C5, as amended: [transform] keeps, of the rows as they stand after the
    [hour] column is parsed and the features are derived, exactly the first
    occurrences, in their order, and it reports how many rows went; on a
    table whose rows at positions 2, 5 and 7 repeat the row at position 0,
    and whose rows as they stand after that step have no other repetition,
    the output is the table without the rows at 2, 5 and 7, three rows
    shorter.  Rows of the input that differ only in [hour] values that
    cannot be read are repetitions after that step, and go as well.  (There
    is an output unless the [hour] column mixes UTC offsets, where
    [transform] raises.) *)
Theorem transform_drops_exact_duplicates df :
  if mixed_hour_offsets df then transform_frame df = Err mixed_offsets_error
  else
    ∃ out,
      transform_frame df = Ok (out, Z.of_nat (len df) - Z.of_nat (len out)) ∧
      rows out = first_occurrences (derived_record df <$> rows df) ∧
      NoDup (rows out) ∧
      (∀ r : row, r ∈ rows out ↔ r ∈ derived_record df <$> rows df) ∧
      (∀ a0 a1 a3 a4 a6 rest,
        rows df = [a0; a1; a0; a3; a4; a0; a6; a0] ++ rest →
        NoDup (derived_record df <$> a0 :: a1 :: a3 :: a4 :: a6 :: rest) →
        rows out = derived_record df <$> a0 :: a1 :: a3 :: a4 :: a6 :: rest ∧
        Z.of_nat (len out) = Z.of_nat (len df) - 3) ∧
      ∀ r1 r2 : row,
        "hour" ∈ columns df →
        delete "hour" r1 = delete "hour" r2 →
        parsed_hour (hour_format df) r1 = CNull →
        parsed_hour (hour_format df) r2 = CNull →
        derived_record df r1 = derived_record df r2.
Proof.
  destruct (mixed_hour_offsets df) eqn:Hmixed; [by apply transform_frame_mixed|].
  destruct (transform_frame_total df Hmixed) as (out & Hout & Hrows & _).
  exists out. split_and!; [done|by rewrite Hrows, drop_seen_first| | | |].
  4:{ intros r1 r2 Hhour Hrest H1 H2. apply derived_record_merges; [done..|congruence]. }
  - rewrite Hrows. apply drop_seen_NoDup.
  - intros r. rewrite Hrows, elem_of_drop_seen. split; [tauto|].
    intros ?. split; [done|apply not_elem_of_nil].
  - intros a0 a1 a3 a4 a6 rest Hdf Hnd.
    assert (rows out = derived_record df <$> a0 :: a1 :: a3 :: a4 :: a6 :: rest) as Hkept.
    { rewrite Hrows, Hdf. rewrite !fmap_cons in Hnd. rewrite fmap_app, !fmap_cons.
      set (g := derived_record df) in *.
      apply NoDup_cons in Hnd as [H0 Hnd]. apply NoDup_cons in Hnd as [H1 Hnd].
      apply NoDup_cons in Hnd as [H3 Hnd]. apply NoDup_cons in Hnd as [H4 Hnd].
      apply NoDup_cons in Hnd as [H6 Hnd].
      cbn [app].
      rewrite (drop_seen_keep [] (g a0)) by set_solver.
      rewrite (drop_seen_keep _ (g a1)) by set_solver.
      rewrite (drop_seen_skip _ (g a0)) by set_solver.
      rewrite (drop_seen_keep _ (g a3)) by set_solver.
      rewrite (drop_seen_keep _ (g a4)) by set_solver.
      rewrite (drop_seen_skip _ (g a0)) by set_solver.
      rewrite (drop_seen_keep _ (g a6)) by set_solver.
      rewrite (drop_seen_skip _ (g a0)) by set_solver.
      do 5 f_equal. apply drop_seen_distinct; [done|]. set_solver. }
    split; [done|].
    unfold len. rewrite Hkept, Hdf, length_fmap, length_app. simpl. lia.
Qed.

(** C6: on a table without an [hour] column [transform] does not raise and
    adds no column; its output is the input with every row that repeats an
    earlier one taken out, and is the input itself when no row repeats. *)
Theorem transform_without_hour df :
  "hour" ∉ columns df →
  ∃ out,
    transform_frame df = Ok (out, Z.of_nat (len df) - Z.of_nat (len out)) ∧
    columns out = columns df ∧
    rows out = first_occurrences (rows df) ∧
    rows out `sublist_of` rows df ∧
    (NoDup (rows df) → out = df).
Proof.
  intros Hhour.
  destruct (transform_frame_total df (mixed_hour_offsets_no_hour df Hhour))
    as (out & Hout & Hrows & Hcols).
  rewrite decide_False in Hcols by done.
  assert (derived_record df <$> rows df = rows df) as Hid.
  { rewrite <- (list_fmap_id (rows df)) at 2.
    apply list_fmap_ext. intros i r _. unfold derived_record. by rewrite decide_False. }
  rewrite Hid in Hrows.
  exists out. split_and!; [done..|by rewrite Hrows, drop_seen_first| |].
  - rewrite Hrows. apply drop_seen_sublist.
  - intros Hnd. rewrite drop_seen_distinct in Hrows;
      [|done|intros; apply not_elem_of_nil].
    destruct out, df; simpl in *; congruence.
Qed.

End TransformerContract.

(** ** The transformer, on the sample data *)

(** The record that [transform] makes of the one record of [one_click],
    whatever pandas reads strings and floats as: 14102100 nanoseconds after
    the epoch is in the first hour of a Thursday. *)
Lemma one_click_transformed `{Pandas} :
  transform_frame one_click =
  Ok ({| columns := click_columns ++ ["hour_of_day"; "weekday"];
         rows := [ <["weekday" := CInt 3]>
                     (<["hour_of_day" := CInt 0]>
                        (click_row 1 0 (CTime 14102100) 0)) ] |}, 0).
Proof. vm_compute. reflexivity. Qed.

(** C1, refuted as worded: [transform] overwrites the [hour] column.  The
    one record of [one_click] has the integer 14102100 there on input and
    the timestamp that [to_datetime] makes of it on output, so under no
    behaviour of pandas does the output keep the input's value. *)
Lemma hour_values_overwritten : ¬ ∃ P : Pandas, @keeps_original_values P one_click.
Proof.
  intros [P Hclaim].
  destruct (Hclaim _ _ one_click_transformed _ ltac:(left)) as (r & Hr & Hsame).
  apply list_elem_of_singleton in Hr as ->.
  specialize (Hsame "hour" ltac:(vm_compute; set_solver) ltac:(done) ltac:(done)).
  vm_compute in Hsame. discriminate.
Qed.

(** ** Programs *)

Lemma say_say w l1 l2 : say (say w l1) l2 = say w (l1 ++ l2).
Proof. unfold say. simpl. by rewrite <- app_assoc. Qed.

Lemma say_nil w : say w [] = w.
Proof. destruct w. unfold say. simpl. by rewrite app_nil_r. Qed.

Lemma emit_say o w : emit o w = (Ok tt, say w [o]).
Proof. done. Qed.

Lemma bind_ok {A B} (m : M A) (k : A → M B) w a w' :
  m w = (Ok a, w') → (m ≫= k) w = k a w'.
Proof. intros Hm. unfold mbind, M_bind. by rewrite Hm. Qed.

Lemma bind_err {A B} (m : M A) (k : A → M B) w e w' :
  m w = (Err e, w') → (m ≫= k) w = (Err e, w').
Proof. intros Hm. unfold mbind, M_bind. by rewrite Hm. Qed.

Section ValidatorContract.
Context `{Pandas}.

Lemma read_rows_outcome fmt n p w : read_rows fmt n p w = (sample_outcome fmt n p w, w).
Proof. unfold sample_outcome, read_rows. by destruct (files w !! p). Qed.

Lemma read_file_outcome fmt p w : read_file fmt p w = (load_outcome fmt p w, w).
Proof. apply read_rows_outcome. Qed.

(** What is said does not change what is read. *)
Lemma sample_outcome_say fmt n p w lines :
  sample_outcome fmt n p (say w lines) = sample_outcome fmt n p w.
Proof. unfold sample_outcome, read_rows. simpl. by destruct (files w !! p). Qed.

Lemma load_outcome_say fmt p w lines :
  load_outcome fmt p (say w lines) = load_outcome fmt p w.
Proof. apply sample_outcome_say. Qed.

(** Step 1 of [validate_data] reads its input as [validate_input_format]
    says, and leaves the world as it is. *)
Lemma validate_load p w :
  (if decide (suffix p = ".csv") then read_csv p Infer None else read_parquet p) w =
  (load_outcome (validate_input_format p) p w, w).
Proof.
  unfold validate_input_format, read_csv, read_parquet.
  case_decide; apply read_file_outcome.
Qed.

Lemma validate_schema_step df w :
  (if decide (filter (λ c, c ∉ columns df) ["id"; "click"; "hour"; "banner_pos"] ≠ [])
   then log_warning (setup_logging "validate")
          (MsgMissingColumns
             (filter (λ c, c ∉ columns df) ["id"; "click"; "hour"; "banner_pos"]))
   else log_info (setup_logging "validate") MsgSchemaPassed) w =
  (Ok tt, say w (schema_check df)).
Proof.
  unfold schema_check, required_columns.
  destruct (filter _ _) as [|c cs]; [by rewrite decide_False by auto|].
  by rewrite decide_True.
Qed.

Lemma validate_null_step df w :
  (if decide (filter (λ cn : string * nat, (0 < cn.2)%nat) (isnull_sum df) ≠ [])
   then log_warning (setup_logging "validate")
          (MsgNullsFound (filter (λ cn : string * nat, (0 < cn.2)%nat) (isnull_sum df)))
   else log_info (setup_logging "validate") MsgNoNulls) w =
  (Ok tt, say w (null_check df)).
Proof.
  unfold null_check.
  destruct (filter _ _) as [|c cs]; [by rewrite decide_False by auto|].
  by rewrite decide_True.
Qed.

Lemma validate_type_step df col w :
  (if decide (col ∈ columns df) then
     s ← lift (getitem df col);
     if negb (is_numeric_dtype s)
     then log_warning (setup_logging "validate") (MsgNotNumeric col)
     else mret tt
   else mret tt) w =
  (Ok tt, say w ((λ c, finding WARNING (MsgNotNumeric c)) <$>
                   filter (λ c, c ∈ columns df ∧ is_numeric_dtype (column_values df c) = false)
                          [col])).
Proof.
  rewrite filter_cons, filter_nil.
  destruct (decide (col ∈ columns df)) as [Hcol|Hcol].
  - rewrite getitem_present by done. unfold lift, mbind, M_bind.
    destruct (is_numeric_dtype (column_values df col)) eqn:Hnum; simpl.
    + rewrite decide_False by (intros [_ ?]; done). simpl. by rewrite say_nil.
    + by rewrite decide_True.
  - rewrite decide_False by tauto. simpl. by rewrite say_nil.
Qed.

Lemma validate_unique_step df w :
  (if decide ("id" ∈ columns df) then
     ids ← lift (getitem df "id");
     if decide (0 < sum_bool (duplicated ids))%nat
     then log_warning (setup_logging "validate") (MsgDuplicatedIds (sum_bool (duplicated ids)))
     else log_info (setup_logging "validate") MsgIdsUnique
   else mret tt) w =
  (Ok tt, say w (uniqueness_check df)).
Proof.
  unfold uniqueness_check.
  destruct (decide ("id" ∈ columns df)) as [Hid|Hid]; [|simpl; by rewrite say_nil].
  rewrite getitem_present by done. unfold lift, mbind, M_bind.
  destruct (sum_bool (duplicated (column_values df "id"))) as [|n].
  - by rewrite decide_False by lia.
  - by rewrite decide_True by lia.
Qed.

Lemma type_check_split df :
  type_check df =
  ((λ c, finding WARNING (MsgNotNumeric c)) <$>
     filter (λ c, c ∈ columns df ∧ is_numeric_dtype (column_values df c) = false) ["id"])
  ++ ((λ c, finding WARNING (MsgNotNumeric c)) <$>
        filter (λ c, c ∈ columns df ∧ is_numeric_dtype (column_values df c) = false)
               ["click"]).
Proof.
  unfold type_check, numeric_columns.
  by rewrite <- fmap_app, <- filter_app.
Qed.

(** [validate_data] on a table that loaded: it returns, and what it says
    is the four checks' findings, one check after the other. *)
Lemma validate_data_loaded p w df :
  load_outcome (validate_input_format p) p w = Ok df →
  validate_data p w = (Ok tt, say w (validation_lines p df)).
Proof.
  intros Hload. unfold validate_data, validation_lines, validation_report.
  erewrite bind_ok by apply emit_say.
  erewrite bind_ok by (rewrite validate_load, load_outcome_say, Hload; reflexivity).
  erewrite bind_ok by apply emit_say.
  erewrite bind_ok by apply validate_schema_step.
  erewrite bind_ok by apply validate_null_step.
  erewrite bind_ok.
  2:{ cbn [for_each].
      erewrite bind_ok by apply validate_type_step.
      erewrite bind_ok by apply validate_type_step. reflexivity. }
  erewrite bind_ok by apply validate_unique_step.
  unfold log_info. rewrite emit_say, !say_say, type_check_split.
  do 2 f_equal. by rewrite <- !app_assoc.
Qed.

(** [validate_data] on a table that does not load raises what the reader
    raised, after its first line. *)
Lemma validate_data_unreadable p w e :
  load_outcome (validate_input_format p) p w = Err e →
  validate_data p w = (Err e, say w [finding INFO (MsgValidating (name p))]).
Proof.
  intros Hload. unfold validate_data.
  erewrite bind_ok by apply emit_say.
  erewrite bind_err by (rewrite validate_load, load_outcome_say, Hload; reflexivity).
  done.
Qed.

End ValidatorContract.

(** ** The validator's contract *)

Lemma filter_none {A} (P : A → Prop) `{!∀ x, Decision (P x)} (l : list A) :
  Forall (λ x, ¬ P x) l → filter P l = [].
Proof.
  induction 1 as [|x l Hx _ IH]; [done|].
  by rewrite filter_cons, decide_False.
Qed.

Lemma schema_findings_of_schema_check df :
  filter (λ o, is_schema_finding o = true) (schema_check df) = schema_check df.
Proof. unfold schema_check. by destruct (filter _ required_columns). Qed.

Lemma no_schema_findings_elsewhere df :
  filter (λ o, is_schema_finding o = true)
         (null_check df ++ type_check df ++ uniqueness_check df) = [].
Proof.
  rewrite !filter_app.
  assert (filter (λ o, is_schema_finding o = true) (null_check df) = []) as ->.
  { unfold null_check. by destruct (filter _ (isnull_sum df)). }
  assert (filter (λ o, is_schema_finding o = true) (type_check df) = []) as ->.
  { apply filter_none, Forall_fmap, Forall_true. by intros c. }
  unfold uniqueness_check. case_decide; [|done].
  by destruct (sum_bool _).
Qed.

Lemma uniqueness_findings_of_uniqueness_check df :
  filter (λ o, is_uniqueness_finding o = true) (uniqueness_check df) = uniqueness_check df.
Proof. unfold uniqueness_check. case_decide; [|done]. by destruct (sum_bool _). Qed.

Lemma no_uniqueness_findings_elsewhere df :
  filter (λ o, is_uniqueness_finding o = true)
         (schema_check df ++ null_check df ++ type_check df) = [].
Proof.
  rewrite !filter_app.
  assert (filter (λ o, is_uniqueness_finding o = true) (schema_check df) = []) as ->.
  { unfold schema_check. by destruct (filter _ required_columns). }
  assert (filter (λ o, is_uniqueness_finding o = true) (null_check df) = []) as ->.
  { unfold null_check. by destruct (filter _ (isnull_sum df)). }
  apply filter_none, Forall_fmap, Forall_true. by intros c.
Qed.

(** Of the lines of a run, the schema findings are those of the schema
    check, and the uniqueness findings those of the uniqueness check. *)
Lemma schema_findings_of_run p df :
  filter (λ o, is_schema_finding o = true) (validation_lines p df) = schema_check df.
Proof.
  unfold validation_lines, validation_report.
  rewrite (filter_app _ [_; _]), (filter_app _ _ [_]), (filter_app _ (schema_check df)).
  rewrite schema_findings_of_schema_check, no_schema_findings_elsewhere.
  cbn. rewrite !decide_False by done. cbn. by rewrite !app_nil_r.
Qed.

Lemma uniqueness_findings_of_run p df :
  filter (λ o, is_uniqueness_finding o = true) (validation_lines p df) =
  uniqueness_check df.
Proof.
  unfold validation_lines.
  assert (validation_report df =
          (schema_check df ++ null_check df ++ type_check df) ++ uniqueness_check df) as ->.
  { unfold validation_report. by rewrite <- !app_assoc. }
  rewrite (filter_app _ [_; _]), (filter_app _ _ [_]), (filter_app _ _ (uniqueness_check df)).
  rewrite uniqueness_findings_of_uniqueness_check, no_uniqueness_findings_elsewhere.
  cbn. rewrite !decide_False by done. cbn. by rewrite ?app_nil_r.
Qed.

Section ValidatorClaims.
Context `{Pandas}.

(** C9: on every table that loads, [validate_data] returns without raising
    and its lines are the findings of the schema, null, type and uniqueness
    checks in turn, each a function of the table alone: the schema and the
    null check give one finding each, the type check at most one per numeric
    column, the uniqueness check one when there is an [id] column; when the
    table does not load, and only then, [validate_data] raises. *)
Theorem validate_runs_all_checks p w :
  match load_outcome (validate_input_format p) p w with
  | Ok df =>
      validate_data p w = (Ok tt, say w (validation_lines p df)) ∧
      length (schema_check df) = 1%nat ∧
      length (null_check df) = 1%nat ∧
      (length (type_check df) ≤ 2)%nat ∧
      length (uniqueness_check df) = (if decide ("id" ∈ columns df) then 1 else 0)%nat
  | Err e =>
      validate_data p w = (Err e, say w [finding INFO (MsgValidating (name p))])
  end.
Proof.
  destruct (load_outcome _ p w) as [df|e] eqn:Hload;
    [|by apply validate_data_unreadable].
  split_and!.
  - by apply validate_data_loaded.
  - unfold schema_check. by destruct (filter _ required_columns).
  - unfold null_check. by destruct (filter _ (isnull_sum df)).
  - unfold type_check. rewrite length_fmap.
    etrans; [apply length_filter|]. done.
  - unfold uniqueness_check. case_decide; [|done]. by destruct (sum_bool _).
Qed.

(** C8: for a table that lacks [click] and has the other required columns,
    the run reports one schema finding, the warning that names [click]; for
    a table whose [id] column holds 1, 1, 2, 3 it reports one uniqueness
    finding, the warning with count 1. *)
Theorem validate_report_examples p w df :
  load_outcome (validate_input_format p) p w = Ok df →
  ∃ lines,
    validate_data p w = (Ok tt, say w lines) ∧
    ("click" ∉ columns df → "id" ∈ columns df → "hour" ∈ columns df →
     "banner_pos" ∈ columns df →
     filter (λ o, is_schema_finding o = true) lines =
     [finding WARNING (MsgMissingColumns ["click"])]) ∧
    ("id" ∈ columns df → column_values df "id" = [CInt 1; CInt 1; CInt 2; CInt 3] →
     filter (λ o, is_uniqueness_finding o = true) lines =
     [finding WARNING (MsgDuplicatedIds 1)]).
Proof.
  intros Hload. exists (validation_lines p df). split_and!.
  - by apply validate_data_loaded.
  - intros Hclick Hid Hhour Hbanner. rewrite schema_findings_of_run.
    unfold schema_check, required_columns.
    rewrite (filter_cons _ "id"), decide_False by tauto.
    rewrite (filter_cons _ "click"), decide_True by done.
    rewrite (filter_cons _ "hour"), decide_False by tauto.
    rewrite (filter_cons _ "banner_pos"), decide_False by tauto.
    done.
  - intros Hid Hids. rewrite uniqueness_findings_of_run.
    unfold uniqueness_check. rewrite decide_True, Hids by done. done.
Qed.

(** C7, as amended: the required columns are the list [id], [click],
    [hour], [banner_pos] written in [validate_data], whose only argument is
    the input path: whatever the path and the world, the schema finding of
    a run over a table is what that list gives against the table's columns. *)
Theorem validate_required_columns_fixed p w df :
  load_outcome (validate_input_format p) p w = Ok df →
  ∃ lines,
    validate_data p w = (Ok tt, say w lines) ∧
    filter (λ o, is_schema_finding o = true) lines =
    match filter (λ c, c ∉ columns df) ["id"; "click"; "hour"; "banner_pos"] with
    | [] => [LogLine "validate" INFO MsgSchemaPassed]
    | missing => [LogLine "validate" WARNING (MsgMissingColumns missing)]
    end.
Proof.
  intros Hload. exists (validation_lines p df).
  split; [by apply validate_data_loaded|apply schema_findings_of_run].
Qed.

End ValidatorClaims.

(** C7, refuted as worded: no two runs over the same table differ in their
    schema findings, so nothing a run is given stands for the list. *)
Lemma required_columns_not_overridable : ¬ required_columns_overridable.
Proof.
  intros (P & p1 & w1 & p2 & w2 & df & l1 & l2 & Hl1 & Hl2 & Hv1 & Hv2 & Hne).
  rewrite (@validate_data_loaded P _ _ _ Hl1) in Hv1.
  rewrite (@validate_data_loaded P _ _ _ Hl2) in Hv2.
  injection Hv1 as Hv1. injection Hv2 as Hv2.
  apply app_inv_head in Hv1 as <-. apply app_inv_head in Hv2 as <-.
  by rewrite !schema_findings_of_run in Hne.
Qed.

(** Discharging a decidable side condition by evaluation. *)
Ltac by_evaluation :=
  match goal with |- ?P => apply (bool_decide_unpack P); vm_compute; exact I end.

Lemma staged_parquet_loads :
  @load_outcome numeric_pandas (validate_input_format staged_parquet) staged_parquet
    staged_world = Ok four_ids.
Proof. vm_compute. reflexivity. Qed.

Lemma validate_report_examples_witness :
  ∃ lines,
    @validate_data numeric_pandas staged_parquet staged_world = (Ok tt, say staged_world lines) ∧
    filter (λ o, is_schema_finding o = true) lines =
      [finding WARNING (MsgMissingColumns ["click"])] ∧
    filter (λ o, is_uniqueness_finding o = true) lines =
      [finding WARNING (MsgDuplicatedIds 1)].
Proof.
  destruct (@validate_report_examples numeric_pandas staged_parquet staged_world four_ids
              staged_parquet_loads) as (lines & Hrun & Hschema & Hunique).
  exists lines. split_and!; [done| |].
  - apply Hschema; by_evaluation.
  - apply Hunique; [by_evaluation|reflexivity].
Defined.

Lemma validate_required_columns_fixed_witness :
  ∃ lines,
    @validate_data numeric_pandas staged_parquet staged_world = (Ok tt, say staged_world lines) ∧
    filter (λ o, is_schema_finding o = true) lines =
      [LogLine "validate" WARNING (MsgMissingColumns ["click"])].
Proof.
  exact (@validate_required_columns_fixed numeric_pandas staged_parquet staged_world four_ids
           staged_parquet_loads).
Defined.

(** ** The loader's contract *)

Lemma write_file_run p f w : write_file p f w = (Ok tt, with_file w p f).
Proof. done. Qed.

Lemma with_file_say w p f lines : with_file (say w lines) p f = say (with_file w p f) lines.
Proof. done. Qed.

Section LoaderContract.
Context `{Pandas} `{Boto}.

Lemma read_csv_outcome p c w :
  read_csv p c None w = (load_outcome (csv_format c p) p w, w).
Proof. apply read_file_outcome. Qed.

Lemma sample_outcome_with_file fmt n p q f w :
  sample_outcome fmt n p (with_file w q f) =
  if decide (q = p) then parse_file fmt n p f else sample_outcome fmt n p w.
Proof.
  unfold sample_outcome, read_rows. cbn [with_file files].
  case_decide as Hq; [subst; by rewrite lookup_insert_eq|].
  rewrite lookup_insert_ne by done. by destruct (files w !! p).
Qed.

Lemma load_outcome_with_file fmt p q f w :
  load_outcome fmt p (with_file w q f) =
  if decide (q = p) then parse_file fmt None p f else load_outcome fmt p w.
Proof. apply sample_outcome_with_file. Qed.

(** [upload_to_s3] returns whatever boto3 does; the world keeps its files,
    gains the lines of the case at hand, and gains an object only when the
    upload went through. *)
Lemma upload_to_s3_returns local_path bucket_name key_prefix logger w :
  ∃ lines objs,
    upload_to_s3 local_path bucket_name key_prefix logger w =
      (Ok tt, {| files := files w; stdout := stdout w ++ lines; bucket_objects := objs |}) ∧
    match AWS_AVAILABLE,
          s3_upload_file local_path bucket_name (key_prefix +:+ name local_path) with
    | false, _ =>
        objs = bucket_objects w ∧
        lines = from_option (λ lg, [LogLine lg WARNING MsgBotoMissing]) [] logger
    | true, UploadNoCredentials =>
        objs = bucket_objects w ∧
        lines = from_option (λ lg, [LogLine lg WARNING MsgNoCredentials]) [] logger
    | true, UploadException e =>
        objs = bucket_objects w ∧
        lines = from_option (λ lg, [LogLine lg ERROR (MsgUploadFailed e)]) [] logger
    | true, UploadDone =>
        objs = bucket_objects w
                 ++ [(bucket_name, key_prefix +:+ name local_path, local_path)] ∧
        lines = from_option
                  (λ lg, [LogLine lg INFO
                            (MsgUploaded (name local_path) bucket_name
                               (key_prefix +:+ name local_path))]) [] logger
    end.
Proof.
  unfold upload_to_s3.
  destruct AWS_AVAILABLE; simpl;
    [destruct (s3_upload_file _ _ _)|];
    destruct logger as [lg|]; simpl;
    eexists _, _; (split; [|try split; reflexivity]);
    try reflexivity; destruct w; unfold mret, M_ret; simpl; by rewrite ?app_nil_r.
Qed.

(** [load_to_curated] on an input that does not read as text raises what
    the reader raised, before it writes anything. *)
Lemma load_to_curated_unreadable in_path out_path logger upload_cloud w e :
  load_outcome (csv_format Infer in_path) in_path w = Err e →
  load_to_curated in_path out_path logger upload_cloud w =
  (Err e, say w [LogLine (default (setup_logging "load") logger) INFO
                   (MsgLoading (name in_path) (name out_path))]).
Proof.
  intros Hload. unfold load_to_curated.
  assert (match logger with None => setup_logging "load" | Some lg => lg end
          = default (setup_logging "load") logger) as -> by by destruct logger.
  erewrite bind_ok by apply emit_say.
  erewrite bind_err by (rewrite read_csv_outcome, load_outcome_say, Hload; reflexivity).
  done.
Qed.

(** [load_to_curated] on an input that reads: it returns, the curated file
    is written before the upload is tried, and the upload adds its own
    lines and, when it went through, its object. *)
Lemma load_to_curated_returns in_path out_path logger upload_cloud w df :
  load_outcome (csv_format Infer in_path) in_path w = Ok df →
  ∃ lines objs,
    load_to_curated in_path out_path logger upload_cloud w =
      (Ok tt, {| files := <[out_path := {| file_format := Parquet; file_frame := df |}]>
                            (files w);
                 stdout := stdout w ++
                   [LogLine (default (setup_logging "load") logger) INFO
                      (MsgLoading (name in_path) (name out_path));
                    LogLine (default (setup_logging "load") logger) INFO
                      (MsgSavedCurated out_path (len df) (length (columns df)))] ++ lines;
                 bucket_objects := objs |}) ∧
    if upload_cloud then
      match AWS_AVAILABLE,
            s3_upload_file out_path "etl-demo-bucket" ("curated/" +:+ name out_path) with
      | false, _ =>
          objs = bucket_objects w ∧
          lines = [LogLine (default (setup_logging "load") logger) WARNING MsgBotoMissing]
      | true, UploadNoCredentials =>
          objs = bucket_objects w ∧
          lines = [LogLine (default (setup_logging "load") logger) WARNING MsgNoCredentials]
      | true, UploadException e =>
          objs = bucket_objects w ∧
          lines = [LogLine (default (setup_logging "load") logger) ERROR (MsgUploadFailed e)]
      | true, UploadDone =>
          objs = bucket_objects w
                   ++ [("etl-demo-bucket", "curated/" +:+ name out_path, out_path)] ∧
          lines = [LogLine (default (setup_logging "load") logger) INFO
                     (MsgUploaded (name out_path) "etl-demo-bucket"
                        ("curated/" +:+ name out_path))]
      end
    else objs = bucket_objects w ∧ lines = [].
Proof.
  intros Hload. unfold load_to_curated.
  assert (match logger with None => setup_logging "load" | Some lg => lg end
          = default (setup_logging "load") logger) as -> by by destruct logger.
  set (lg := default (setup_logging "load") logger).
  erewrite bind_ok by apply emit_say.
  erewrite bind_ok by (rewrite read_csv_outcome, load_outcome_say, Hload; reflexivity).
  erewrite bind_ok by reflexivity.
  erewrite bind_ok by (unfold to_parquet; apply write_file_run).
  erewrite bind_ok by apply emit_say.
  rewrite with_file_say, say_say.
  destruct upload_cloud.
  - match goal with |- context [upload_to_s3 ?l ?b ?k ?o ?w0] =>
      destruct (upload_to_s3_returns l b k o w0) as (lines & objs & Hup & Hcase)
    end.
    exists lines, objs. split.
    + rewrite Hup. cbn [say with_file files stdout]. by rewrite <- app_assoc.
    + cbn [bucket_objects say with_file from_option] in Hcase. exact Hcase.
  - exists [], (bucket_objects w). split; [|done].
    unfold mret, M_ret, say, with_file. by cbn.
Qed.

(** C10: whatever boto3 is or does, [load_to_curated] on an input that
    reads returns without raising, has written the curated parquet file and
    has said so; without boto3, without credentials or after any other
    upload error, nothing is uploaded and the last line says why. *)
Theorem load_survives_upload_trouble in_path out_path logger upload_cloud w df :
  load_outcome (csv_format Infer in_path) in_path w = Ok df →
  ∃ lines objs,
    load_to_curated in_path out_path logger upload_cloud w =
      (Ok tt, {| files := <[out_path := {| file_format := Parquet; file_frame := df |}]>
                            (files w);
                 stdout := stdout w ++ lines;
                 bucket_objects := objs |}) ∧
    LogLine (default (setup_logging "load") logger) INFO
      (MsgSavedCurated out_path (len df) (length (columns df))) ∈ lines ∧
    (upload_cloud = true →
     match AWS_AVAILABLE,
           s3_upload_file out_path "etl-demo-bucket" ("curated/" +:+ name out_path) with
     | false, _ =>
         objs = bucket_objects w ∧
         last lines = Some (LogLine (default (setup_logging "load") logger) WARNING
                              MsgBotoMissing)
     | true, UploadNoCredentials =>
         objs = bucket_objects w ∧
         last lines = Some (LogLine (default (setup_logging "load") logger) WARNING
                              MsgNoCredentials)
     | true, UploadException e =>
         objs = bucket_objects w ∧
         last lines = Some (LogLine (default (setup_logging "load") logger) ERROR
                              (MsgUploadFailed e))
     | true, UploadDone => True
     end).
Proof.
  intros Hload.
  destruct (load_to_curated_returns in_path out_path logger upload_cloud w df Hload)
    as (lines & objs & Hrun & Hcase).
  eexists _, objs. split_and!; [exact Hrun|set_solver|].
  intros ->.
  destruct AWS_AVAILABLE; [destruct (s3_upload_file _ _ _)|];
    try done; destruct Hcase as [-> ->]; by split.
Qed.

End LoaderContract.

(** ** The orchestrated run *)

Lemma name_joinpath dir f : name (joinpath dir f) = f.
Proof. unfold name, joinpath. apply last_last. Qed.

Lemma suffix_joinpath dir f : suffix (joinpath dir f) = suffix [f].
Proof. unfold suffix. by rewrite name_joinpath. Qed.

Lemma csv_format_joinpath c dir file :
  csv_format c (joinpath dir file) = csv_format c [file].
Proof.
  destruct c; [|done]. unfold csv_format, infer_compression. by rewrite name_joinpath.
Qed.

(** The inference at work: it goes by the end of the name, in any case of
    letters, takes a compressed tar archive for a tar archive, and knows
    neither [.csv] nor [.parquet]. *)
Lemma csv_format_examples :
  csv_format Infer ["data"; "train.gz"] = GzipCsvText ∧
  csv_format Infer ["data"; "TRAIN.GZ"] = GzipCsvText ∧
  csv_format Infer ["data"; "train.tar.gz"] = TarCsvText ∧
  csv_format Infer ["data"; "plain.bz2"] = Bz2CsvText ∧
  csv_format Infer ["data"; "train_transformed.csv"] = CsvText ∧
  csv_format Infer ["data"; "clicks.parquet"] = CsvText ∧
  csv_format Infer ["data"; "gz"] = CsvText.
Proof. by vm_compute. Qed.

Lemma joinpath_ne dir1 dir2 f1 f2 : f1 ≠ f2 → joinpath dir1 f1 ≠ joinpath dir2 f2.
Proof.
  unfold joinpath. intros Hne Heq. apply app_inj_tail in Heq as [_ ?]. done.
Qed.

Lemma joinpath_ne_dir dir d1 d2 f1 f2 :
  d1 ≠ d2 → joinpath (joinpath dir d1) f1 ≠ joinpath (joinpath dir d2) f2.
Proof.
  unfold joinpath. intros Hne Heq.
  apply app_inj_tail in Heq as [Heq _]. apply app_inj_tail in Heq as [_ ?]. done.
Qed.

Section PipelineContract.
Context `{Pandas} `{Boto}.

Lemma read_csv_rows p c nrows w df :
  sample_outcome (csv_format c p) nrows p w = Ok df →
  read_csv p c nrows w = (Ok df, w).
Proof. intros Hload. unfold read_csv. by rewrite read_rows_outcome, Hload. Qed.

Lemma read_csv_unreadable p c n w e :
  sample_outcome (csv_format c p) n p w = Err e → read_csv p c n w = (Err e, w).
Proof. intros Hload. unfold read_csv. by rewrite read_rows_outcome, Hload. Qed.

(** [extract_sample] on a readable archive: the frame read from its first
    [n] records goes to the sample file as text. *)
Lemma extract_sample_run input_path output_path n w sample :
  sample_outcome GzipCsvText n input_path w = Ok sample →
  extract_sample input_path output_path n w =
  (Ok tt,
   say (with_file w output_path
          {| file_format := csv_format Infer output_path; file_frame := sample |})
       [Printed (MsgReadingFrom input_path);
        Printed (MsgSampleLoaded (len sample) (length (columns sample)));
        Printed (MsgSampleSaved output_path)]).
Proof.
  intros Hload. unfold extract_sample.
  erewrite bind_ok by apply emit_say.
  erewrite bind_ok by reflexivity.
  erewrite bind_ok by (apply read_csv_rows; by rewrite sample_outcome_say).
  erewrite bind_ok by apply emit_say.
  erewrite bind_ok by (unfold to_csv; apply write_file_run).
  unfold print. rewrite emit_say, !with_file_say, !say_say. done.
Qed.

(** [transform] on a readable sample: the transformed frame goes to the
    output path as parquet, whatever the path is called. *)
Lemma transform_run in_path out_path w df df1 :
  load_outcome (csv_format Infer in_path) in_path w = Ok df →
  parse_hour_features df = Ok df1 →
  transform in_path out_path w =
  (Ok tt,
   say (with_file w out_path
          {| file_format := Parquet; file_frame := drop_duplicates df1 |})
       [LogLine "transform" INFO (MsgTransforming (name in_path) (name out_path));
        LogLine "transform" INFO (MsgLoaded (len df) (length (columns df)));
        LogLine "transform" INFO
          (MsgRemovedDuplicates (Z.of_nat (len df1) - Z.of_nat (len (drop_duplicates df1))));
        LogLine "transform" INFO (MsgSavedCleaned out_path)]).
Proof.
  intros Hload Hparse. unfold transform.
  erewrite bind_ok by apply emit_say.
  erewrite bind_ok by (apply read_csv_rows; by rewrite sample_outcome_say).
  erewrite bind_ok by apply emit_say.
  erewrite bind_ok by (unfold lift; rewrite Hparse; reflexivity).
  erewrite bind_ok by apply emit_say.
  erewrite bind_ok by reflexivity.
  erewrite bind_ok by (unfold to_parquet; apply write_file_run).
  unfold log_info. rewrite emit_say, !with_file_say, !say_say. done.
Qed.

Lemma transform_unreadable in_path out_path w e :
  load_outcome (csv_format Infer in_path) in_path w = Err e →
  transform in_path out_path w =
  (Err e, say w [LogLine "transform" INFO
                   (MsgTransforming (name in_path) (name out_path))]).
Proof.
  intros Hload. unfold transform.
  erewrite bind_ok by apply emit_say.
  erewrite bind_err; [reflexivity|].
  apply read_csv_unreadable. by rewrite sample_outcome_say.
Qed.

(** [transform] on a sample whose [hour] column mixes offsets: it raises
    after two lines, and writes nothing. *)
Lemma transform_mixed in_path out_path w df :
  load_outcome (csv_format Infer in_path) in_path w = Ok df →
  mixed_hour_offsets df = true →
  transform in_path out_path w =
  (Err mixed_offsets_error,
   say w [LogLine "transform" INFO (MsgTransforming (name in_path) (name out_path));
          LogLine "transform" INFO (MsgLoaded (len df) (length (columns df)))]).
Proof.
  intros Hload Hmixed. unfold transform.
  erewrite bind_ok by apply emit_say.
  erewrite bind_ok by (apply read_csv_rows; by rewrite sample_outcome_say).
  erewrite bind_ok by apply emit_say.
  erewrite bind_err by (unfold lift; rewrite parse_hour_features_mixed by done; reflexivity).
  by rewrite say_say.
Qed.

(** What a text reader makes of a parquet file. *)
Lemma parse_parquet_as_text fmt n p out :
  fmt ≠ Parquet →
  parse_file fmt n p {| file_format := Parquet; file_frame := out |} =
  match misread fmt Parquet n out with
  | Some seen => Ok seen
  | None => Err (ParserError p)
  end.
Proof. intros Hfmt. unfold parse_file. by rewrite decide_False. Qed.

(** [read_csv] never takes bytes for parquet. *)
Lemma csv_format_text c p : csv_format c p ≠ Parquet.
Proof.
  destruct c; [|done]. unfold csv_format, infer_compression.
  destruct (filter _ _) as [|ec l] eqn:Hfilter; [done|].
  assert (ec ∈ extension_to_compression) as Hin.
  { eapply list_elem_of_filter. rewrite Hfilter. by left. }
  unfold extension_to_compression in Hin.
  repeat (apply elem_of_cons in Hin as [->|Hin]; [done|]).
  by apply elem_of_nil in Hin.
Qed.

(** C2: in the orchestrated run the staged file is handed on under a name
    that ends in [.csv]; [transform] writes it as parquet all the same,
    [validate_data] picks its reader by the suffix and [load_to_curated]
    always reads text, so both take the parquet bytes for text: the run
    stops in [validate_data] with the text reader's error, or, where that
    reader makes some table of the bytes, validates and loads that table
    in place of the transformed one.  (A run gets that far unless the
    [hour] column of the sample mixes UTC offsets, where it stops in
    [transform].) *)
Theorem pipeline_reads_parquet_as_csv (CFG : Config) w sample :
  sample_outcome GzipCsvText (Some (sample_rows CFG)) (joinpath (raw_dir CFG) "train.gz") w =
    Ok sample →
  if mixed_hour_offsets (csv_text sample)
  then (run_pipeline CFG w).1 = Err mixed_offsets_error
  else
    ∃ out n r w',
      transform_frame (csv_text sample) = Ok (out, n) ∧
      run_pipeline CFG w = (r, w') ∧
      files w' !! joinpath (staged_dir CFG) "train_transformed.csv" =
        Some {| file_format := Parquet; file_frame := out |} ∧
      validate_input_format (joinpath (staged_dir CFG) "train_transformed.csv") = CsvText ∧
      csv_format Infer (joinpath (staged_dir CFG) "train_transformed.csv") = CsvText ∧
      match misread CsvText Parquet None out with
      | None => r = Err (ParserError (joinpath (staged_dir CFG) "train_transformed.csv"))
      | Some seen =>
          r = Ok tt ∧
          files w' !! joinpath (curated_dir CFG) "train_curated.parquet" =
            Some {| file_format := Parquet; file_frame := seen |} ∧
          finding INFO (MsgLoaded (len seen) (length (columns seen))) ∈ stdout w'
      end.
Proof.
  intros Hraw.
  set (raw_path := joinpath (raw_dir CFG) "train.gz") in *.
  set (sample_path := joinpath (samples_dir CFG) "train_sample.csv").
  set (staged_path := joinpath (staged_dir CFG) "train_transformed.csv").
  set (curated_path := joinpath (curated_dir CFG) "train_curated.parquet").
  assert (csv_format Infer staged_path = CsvText) as Hlfmt
    by (unfold staged_path; by rewrite csv_format_joinpath).
  assert (validate_input_format staged_path = CsvText) as Hvfmt.
  { unfold validate_input_format. rewrite Hlfmt.
    unfold staged_path. by rewrite suffix_joinpath. }
  assert (csv_format Infer sample_path = CsvText) as Hsfmt
    by (unfold sample_path; by rewrite csv_format_joinpath).
  assert (sample_path ≠ staged_path) as Hne1 by by apply joinpath_ne.
  assert (staged_path ≠ curated_path) as Hne2 by by apply joinpath_ne.
  assert (∀ lines,
            load_outcome (csv_format Infer sample_path) sample_path
              (say (with_file w sample_path
                      {| file_format := CsvText; file_frame := sample |}) lines) =
            Ok (csv_text sample)) as Hsample.
  { intros lines.
    rewrite Hsfmt, load_outcome_say, load_outcome_with_file, decide_True by done.
    unfold parse_file. by rewrite decide_True. }
  unfold run_pipeline.
  fold raw_path sample_path staged_path curated_path.
  erewrite bind_ok by apply emit_say.
  erewrite bind_ok by apply emit_say.
  erewrite bind_ok by (apply extract_sample_run; rewrite !sample_outcome_say; exact Hraw).
  erewrite bind_ok by apply emit_say.
  rewrite !with_file_say, !say_say. rewrite Hsfmt.
  destruct (mixed_hour_offsets (csv_text sample)) eqn:Hmixed.
  { erewrite bind_err by (apply transform_mixed; [apply Hsample|done]). done. }
  destruct (parse_hour_features_total (csv_text sample) Hmixed) as (df1 & Hparse & _).
  exists (drop_duplicates df1), (Z.of_nat (len df1) - Z.of_nat (len (drop_duplicates df1))).
  erewrite bind_ok by (eapply transform_run; [apply Hsample|exact Hparse]).
  erewrite bind_ok by apply emit_say.
  rewrite !with_file_say, !say_say.
  set (out := drop_duplicates df1).
  set (w2 := say _ _).
  assert (files w2 !! staged_path = Some {| file_format := Parquet; file_frame := out |})
    as Hstaged by apply lookup_insert_eq.
  assert (load_outcome CsvText staged_path w2 =
          match misread CsvText Parquet None out with
          | Some seen => Ok seen
          | None => Err (ParserError staged_path)
          end) as Hseen.
  { unfold w2. rewrite load_outcome_say, load_outcome_with_file, decide_True by done.
    by apply parse_parquet_as_text. }
  assert (transform_frame (csv_text sample) =
          Ok (out, Z.of_nat (len df1) - Z.of_nat (len out))) as Hframe.
  { unfold transform_frame. by rewrite Hparse. }
  destruct (misread CsvText Parquet None out) as [seen|].
  - erewrite bind_ok by (apply validate_data_loaded; by rewrite Hvfmt).
    erewrite bind_ok by apply emit_say.
    rewrite say_say.
    set (w3 := say w2 _).
    destruct (load_to_curated_returns staged_path curated_path
                (Some (setup_logging "pipeline")) true w3 seen)
      as (lines & objs & Hrun & _).
    { rewrite Hlfmt. unfold w3. by rewrite load_outcome_say. }
    erewrite bind_ok by exact Hrun.
    unfold log_info. rewrite emit_say.
    eexists _, _. split_and!; [done|reflexivity| |done|done|done| |].
    + cbn [say files]. rewrite lookup_insert_ne by done. exact Hstaged.
    + cbn [say files]. apply lookup_insert_eq.
    + cbn [say stdout w3]. unfold validation_lines. set_solver.
  - erewrite bind_err by (apply validate_data_unreadable; by rewrite Hvfmt).
    eexists _, _. split_and!; [done|reflexivity|exact Hstaged|done..].
Qed.

(** [transform] writes what [transform_frame] returns and logs its count. *)
Lemma transform_writes_frame in_path out_path w df out n :
  load_outcome (csv_format Infer in_path) in_path w = Ok df →
  transform_frame df = Ok (out, n) →
  transform in_path out_path w =
  (Ok tt,
   say (with_file w out_path {| file_format := Parquet; file_frame := out |})
       [LogLine "transform" INFO (MsgTransforming (name in_path) (name out_path));
        LogLine "transform" INFO (MsgLoaded (len df) (length (columns df)));
        LogLine "transform" INFO (MsgRemovedDuplicates n);
        LogLine "transform" INFO (MsgSavedCleaned out_path)]).
Proof.
  intros Hload Hframe. unfold transform_frame in Hframe.
  destruct (parse_hour_features df) as [df1|e] eqn:Hparse; [|done].
  cbn [mbind result_bind] in Hframe. injection Hframe as <- <-.
  by apply transform_run.
Qed.

(** C4, as amended: [transform] applied to the table it returned does not
    raise, removes zero rows and returns the table it was given, so the
    derived columns are neither added again nor changed.  That is so of the
    table; the operation that the code has goes from file to file, writes
    parquet and reads delimited text, so a second run on the file it wrote
    has the text reader take parquet bytes: it raises that reader's error
    after its first line and writes nothing, or, where the reader makes
    some table of the bytes, works on that table. *)
Theorem transform_idempotent df out n :
  transform_frame df = Ok (out, n) →
  transform_frame out = Ok (out, 0) ∧
  ∀ in_path out_path again_path w,
    load_outcome (csv_format Infer in_path) in_path w = Ok df →
    ∃ w1,
      transform in_path out_path w = (Ok tt, w1) ∧
      files w1 !! out_path = Some {| file_format := Parquet; file_frame := out |} ∧
      match misread (csv_format Infer out_path) Parquet None out with
      | None =>
          transform out_path again_path w1 =
          (Err (ParserError out_path),
           say w1 [LogLine "transform" INFO
                     (MsgTransforming (name out_path) (name again_path))])
      | Some seen =>
          load_outcome (csv_format Infer out_path) out_path w1 = Ok seen
      end.
Proof.
  intros Hfirst. split; [by eapply transform_frame_again|].
  intros in_path out_path again_path w Hload.
  eexists. split; [by apply transform_writes_frame|].
  split; [apply lookup_insert_eq|].
  assert (∀ lines,
            load_outcome (csv_format Infer out_path) out_path
              (say (say (with_file w out_path
                           {| file_format := Parquet; file_frame := out |}) lines) []) =
            match misread (csv_format Infer out_path) Parquet None out with
            | Some seen => Ok seen
            | None => Err (ParserError out_path)
            end) as Hseen.
  { intros lines.
    rewrite !load_outcome_say, load_outcome_with_file, decide_True by done.
    apply parse_parquet_as_text, csv_format_text. }
  destruct (misread (csv_format Infer out_path) Parquet None out) as [seen|] eqn:Hmis.
  - specialize (Hseen [LogLine "transform" INFO (MsgTransforming (name in_path) (name out_path));
                       LogLine "transform" INFO (MsgLoaded (len df) (length (columns df)));
                       LogLine "transform" INFO (MsgRemovedDuplicates n);
                       LogLine "transform" INFO (MsgSavedCleaned out_path)]).
    by rewrite say_nil in Hseen.
  - unfold transform at 1.
    erewrite bind_ok by apply emit_say.
    erewrite bind_err; [reflexivity|].
    unfold read_csv. rewrite read_rows_outcome. f_equal.
    rewrite sample_outcome_say. rewrite <- (say_nil (say _ _)). apply Hseen.
Qed.

End PipelineContract.

(** ** The claims on the sample data *)

Lemma eight_clicks_unmixed : @mixed_hour_offsets numeric_pandas eight_clicks = false.
Proof. vm_compute. reflexivity. Qed.



Lemma transform_idempotent_witness :
  ∃ out w1,
    @transform_frame numeric_pandas out = Ok (out, 0) ∧
    @transform numeric_pandas staged_csv staged_parquet staged_world = (Ok tt, w1) ∧
    files w1 !! staged_parquet = Some {| file_format := Parquet; file_frame := out |} ∧
    @transform numeric_pandas staged_parquet staged_parquet w1 =
      (Err (ParserError staged_parquet),
       say w1 [LogLine "transform" INFO (MsgTransforming "clicks.parquet" "clicks.parquet")]).
Proof.
  destruct (@transform_frame_total numeric_pandas four_ids eq_refl) as (out & Hout & _).
  destruct (@transform_idempotent numeric_pandas four_ids out _ Hout) as [Hsecond Hfile].
  destruct (Hfile staged_csv staged_parquet staged_parquet staged_world)
    as (w1 & Hrun & Hwritten & Hagain); [vm_compute; reflexivity|].
  exists out, w1. split_and!; [done..|]. exact Hagain.
Defined.

Lemma transform_drops_exact_duplicates_witness :
  ∃ out, @transform_frame numeric_pandas eight_clicks = Ok (out, 3) ∧ len out = 5%nat.
Proof.
  pose proof (@transform_drops_exact_duplicates numeric_pandas eight_clicks) as Hclaim.
  rewrite eight_clicks_unmixed in Hclaim.
  destruct Hclaim as (out & Hout & _ & _ & _ & Hexample & _).
  destruct (Hexample (click_row 1 0 (CInt 14102100) 0) (click_row 2 1 (CInt 14102101) 1)
              (click_row 3 0 (CInt 14102102) 0) (click_row 4 0 (CStr "n/a") 1)
              (click_row 5 1 (CInt 14102103) 0) []) as [Hrows Hlen];
    [reflexivity|by_evaluation|].
  exists out. change (len eight_clicks) with 8%nat in Hout, Hlen.
  split; [|lia]. rewrite Hout. do 2 f_equal. lia.
Defined.

Lemma transform_without_hour_witness :
  ∃ out,
    @transform_frame numeric_pandas eight_untimed_clicks =
      Ok (out, Z.of_nat (len eight_untimed_clicks) - Z.of_nat (len out)) ∧
    columns out = ["id"; "click"; "banner_pos"] ∧
    rows out = first_occurrences (rows eight_untimed_clicks) ∧
    rows out `sublist_of` rows eight_untimed_clicks ∧
    (NoDup (rows eight_untimed_clicks) → out = eight_untimed_clicks).
Proof.
  apply (@transform_without_hour numeric_pandas eight_untimed_clicks). by_evaluation.
Defined.

Lemma raw_archive_loads :
  @sample_outcome numeric_pandas GzipCsvText (Some (sample_rows sample_config))
    (joinpath (raw_dir sample_config) "train.gz") raw_world = Ok eight_clicks.
Proof. vm_compute. reflexivity. Qed.

Lemma pipeline_reads_parquet_as_csv_witness :
  ∃ out w',
    @run_pipeline numeric_pandas no_boto sample_config raw_world =
      (Err (ParserError ["repo"; "data"; "staged"; "train_transformed.csv"]), w') ∧
    files w' !! ["repo"; "data"; "staged"; "train_transformed.csv"] =
      Some {| file_format := Parquet; file_frame := out |}.
Proof.
  pose proof (@pipeline_reads_parquet_as_csv numeric_pandas no_boto sample_config raw_world
                eight_clicks raw_archive_loads) as Hclaim.
  change (@csv_text numeric_pandas eight_clicks) with eight_clicks in Hclaim.
  rewrite eight_clicks_unmixed in Hclaim.
  destruct Hclaim as (out & n & r & w' & _ & Hrun & Hstaged & _ & _ & Hr).
  exists out, w'. cbn in Hr. subst r. by split.
Defined.

Lemma staged_csv_loads :
  @load_outcome numeric_pandas (csv_format Infer staged_csv) staged_csv staged_world =
  Ok four_ids.
Proof. vm_compute. reflexivity. Qed.

(** C4, refuted as worded: the operation that the code has is not
    re-appliable.  With a text reader that rejects parquet bytes, as the
    reader of the sample installation does, [transform] run on the file it
    has just written raises the reader's error. *)
Lemma transform_rerun_raises : ¬ @transform_reappliable numeric_pandas.
Proof.
  intros Hclaim.
  destruct (@transform_frame_total numeric_pandas four_ids eq_refl) as (out & Hout & _).
  pose proof (@transform_writes_frame numeric_pandas staged_csv staged_parquet staged_world
                four_ids out _ staged_csv_loads Hout) as Hfirst.
  destruct (Hclaim _ _ _ _ Hfirst) as (w2 & Hsecond & _).
  rewrite (@transform_unreadable numeric_pandas staged_parquet staged_parquet _
             (ParserError staged_parquet)) in Hsecond; [discriminate|].
  rewrite load_outcome_say, load_outcome_with_file, decide_True by done.
  rewrite parse_parquet_as_text by apply csv_format_text. reflexivity.
Qed.

Lemma eight_unread_clicks_transformed :
  ∃ out, @transform_frame numeric_pandas eight_unread_clicks = Ok (out, 4).
Proof. eexists. vm_compute. reflexivity. Qed.

(** C5, refuted as worded: in [eight_unread_clicks] the rows at 2, 5 and 7
    repeat the row at 0 and no other two rows are equal, but the rows at 3
    and 4 differ only in an [hour] that cannot be read; both get a null
    there, the row at 4 goes as a repetition of the row at 3, and four
    rows are removed, not three. *)
Lemma unreadable_hours_become_duplicates :
  ¬ @drops_three_of_eight numeric_pandas eight_unread_clicks.
Proof.
  intros Hclaim.
  destruct eight_unread_clicks_transformed as [out Hout].
  destruct (Hclaim (click_row 1 0 (CInt 14102100) 0) (click_row 2 1 (CInt 14102101) 1)
              (click_row 3 0 (CStr "unknown") 0) (click_row 3 0 (CStr "missing") 0)
              (click_row 5 1 (CInt 14102103) 0) [] eq_refl ltac:(by_evaluation) out 4 Hout)
    as [Hn _].
  discriminate.
Qed.

Lemma load_survives_upload_trouble_witness :
  ∃ lines,
    @load_to_curated numeric_pandas no_boto staged_csv curated_parquet None true staged_world =
      (Ok tt, {| files := <[curated_parquet := {| file_format := Parquet;
                                                  file_frame := four_ids |}]>
                            (files staged_world);
                 stdout := lines;
                 bucket_objects := [] |}) ∧
    last lines = Some (LogLine "load" WARNING MsgBotoMissing).
Proof.
  destruct (@load_survives_upload_trouble numeric_pandas no_boto staged_csv curated_parquet
              None true staged_world four_ids staged_csv_loads)
    as (lines & objs & Hrun & _ & Hcase).
  destruct (Hcase eq_refl) as [-> Hlast].
  exists lines. by split.
Defined.

(** * More properties of the code *)

(** ** The transformer *)

Lemma drop_seen_full_length seen rs :
  length (drop_seen seen rs) = length rs → drop_seen seen rs = rs.
Proof.
  revert seen. induction rs as [|x rs IH]; intros seen Hlen; [done|].
  simpl in *. case_decide.
  - pose proof (sublist_length _ _ (drop_seen_sublist seen rs)). lia.
  - simpl in Hlen. f_equal. apply IH. lia.
Qed.

Section TransformerMore.
Context `{Pandas}.

(** X1: [transform] keeps the input's columns where they are and appends
    the derived columns after them, [hour_of_day] before [weekday], each
    only if the input had no column of that name; without an [hour] column
    the columns are the input's.  (There is an output unless the [hour]
    column mixes UTC offsets, where [transform] raises.) *)
Theorem transform_columns df :
  if mixed_hour_offsets df then transform_frame df = Err mixed_offsets_error
  else
    ∃ out n,
      transform_frame df = Ok (out, n) ∧
      columns out =
        columns df ++
        if decide ("hour" ∈ columns df)
        then filter (λ c, c ∉ columns df) ["hour_of_day"; "weekday"]
        else [].
Proof.
  destruct (mixed_hour_offsets df) eqn:Hmixed; [by apply transform_frame_mixed|].
  destruct (transform_frame_total df Hmixed) as (out & Hout & _ & Hcols).
  exists out, (Z.of_nat (len df) - Z.of_nat (len out)). split; [done|].
  rewrite Hcols. case_decide; [|by rewrite app_nil_r].
  rewrite filter_cons, filter_cons, filter_nil. unfold add_column.
  repeat case_decide; rewrite ?app_nil_r, <- ?app_assoc; try done; exfalso;
    rewrite ?elem_of_app, ?list_elem_of_singleton in *;
    intuition discriminate.
Qed.

(** X2: the number of rows that [transform] reports as removed is the
    number of input rows less the number of output rows, never negative,
    and zero exactly when no two rows are equal once the features are
    derived.  (There is a report unless the [hour] column mixes UTC offsets,
    where [transform] raises.) *)
Theorem transform_removed_count df :
  if mixed_hour_offsets df then transform_frame df = Err mixed_offsets_error
  else
    ∃ out n,
      transform_frame df = Ok (out, n) ∧
      n = Z.of_nat (len df) - Z.of_nat (len out) ∧
      0 ≤ n ≤ Z.of_nat (len df) ∧
      (n = 0 ↔ NoDup (derived_record df <$> rows df)).
Proof.
  destruct (mixed_hour_offsets df) eqn:Hmixed; [by apply transform_frame_mixed|].
  destruct (transform_frame_total df Hmixed) as (out & Hout & Hrows & _).
  exists out, (Z.of_nat (len df) - Z.of_nat (len out)).
  assert (len out ≤ len df)%nat as Hle.
  { unfold len. rewrite Hrows.
    etrans; [apply sublist_length, drop_seen_sublist|]. by rewrite length_fmap. }
  split_and!; [done|done|lia|lia|].
  split.
  - intros Hzero.
    assert (drop_seen [] (derived_record df <$> rows df) = derived_record df <$> rows df)
      as Hall.
    { apply drop_seen_full_length. rewrite <- Hrows, length_fmap. unfold len in *. lia. }
    rewrite <- Hall. apply drop_seen_NoDup.
  - intros Hnd. rewrite drop_seen_distinct in Hrows;
      [|done|intros; apply not_elem_of_nil].
    unfold len. rewrite Hrows, length_fmap. lia.
Qed.

(** X3: an integer in the [hour] column is read as that many nanoseconds
    since the epoch.  So on a table whose [hour] values are all integers
    from 0 up to an hour's worth of nanoseconds, which covers the
    eight-digit YYMMDDHH codes, the derived features are the same in every
    row of the output: hour 0 of a Thursday. *)
Theorem integer_hours_are_nanoseconds df :
  "hour" ∈ columns df →
  Forall (λ r : row, ∃ n, r !! "hour" = Some (CInt n) ∧ 0 ≤ n < NS_PER_HOUR) (rows df) →
  ∃ out k,
    transform_frame df = Ok (out, k) ∧
    Forall (λ r' : row,
              (∃ n, r' !! "hour" = Some (CTime n) ∧ 0 ≤ n < NS_PER_HOUR) ∧
              r' !! "hour_of_day" = Some (CInt 0) ∧
              r' !! "weekday" = Some (CInt 3)) (rows out).
Proof.
  intros Hhour Hints.
  assert (mixed_hour_offsets df = false) as Hmixed.
  { rewrite mixed_hour_offsets_hour by done. apply mixed_offsets_no_strings.
    unfold column_values. apply Forall_fmap. eapply Forall_impl; [exact Hints|].
    intros r (n & Hn & _) x. simpl. by rewrite Hn. }
  destruct (transform_frame_total df Hmixed) as (out & Hout & Hrows & _).
  exists out, (Z.of_nat (len df) - Z.of_nat (len out)). split; [done|].
  apply Forall_forall. intros r' Hr'.
  rewrite Hrows, elem_of_drop_seen, list_elem_of_fmap in Hr'.
  destruct Hr' as [(r & -> & Hr) _].
  rewrite Forall_forall in Hints. destruct (Hints r Hr) as (n & Hn & Hrange).
  unfold derived_record. rewrite decide_True by done.
  assert (parsed_hour (hour_format df) r = CTime n) as Hparsed.
  { unfold parsed_hour. rewrite Hn. simpl. rewrite bool_decide_eq_true_2; [done|].
    unfold NS_PER_HOUR in Hrange. lia. }
  rewrite with_time_features_hour, with_time_features_hour_of_day,
    with_time_features_weekday, Hparsed.
  split_and!.
  - by exists n.
  - simpl. do 2 f_equal. unfold hour_of_ns. by rewrite Z.div_small.
  - simpl. do 2 f_equal. unfold weekday_of_ns, NS_PER_DAY.
    rewrite Z.div_small; [done|]. unfold NS_PER_HOUR in *. lia.
Qed.

(** X4: in the output of [transform] on a table with an [hour] column,
    every [hour] value is a timestamp or null, and the sentinel -1 stands
    in [hour_of_day], and in [weekday], exactly where [hour] is null: no
    timestamp has -1 for a feature.  (There is an output unless the [hour]
    column mixes UTC offsets, where [transform] raises.) *)
Theorem transform_sentinel_marks_null df :
  "hour" ∈ columns df →
  if mixed_hour_offsets df then transform_frame df = Err mixed_offsets_error
  else
    ∃ out n,
      transform_frame df = Ok (out, n) ∧
      Forall (λ r' : row, ∃ t,
                r' !! "hour" = Some t ∧ is_datetimelike t = true ∧
                (t = CNull ↔ r' !! "hour_of_day" = Some (CInt (-1))) ∧
                (t = CNull ↔ r' !! "weekday" = Some (CInt (-1)))) (rows out).
Proof.
  intros Hhour.
  destruct (mixed_hour_offsets df) eqn:Hmixed; [by apply transform_frame_mixed|].
  destruct (transform_frame_total df Hmixed) as (out & Hout & Hrows & _).
  exists out, (Z.of_nat (len df) - Z.of_nat (len out)). split; [done|].
  apply Forall_forall. intros r' Hr'.
  rewrite Hrows, elem_of_drop_seen, list_elem_of_fmap in Hr'.
  destruct Hr' as [(r & -> & _) _].
  unfold derived_record. rewrite decide_True by done.
  exists (parsed_hour (hour_format df) r).
  rewrite with_time_features_hour, with_time_features_hour_of_day,
    with_time_features_weekday.
  split_and!; [done|apply to_datetime_cell_datetimelike|..].
  - pose proof (to_datetime_cell_datetimelike (hour_format df) (default CNull (r !! "hour")))
      as Hdt.
    fold (parsed_hour (hour_format df) r) in Hdt.
    destruct (parsed_hour (hour_format df) r) as [|?|?|?|ns]; try done.
    simpl. pose proof (hour_of_ns_range ns). split; [done|]. intros [= Heq]. lia.
  - pose proof (to_datetime_cell_datetimelike (hour_format df) (default CNull (r !! "hour")))
      as Hdt.
    fold (parsed_hour (hour_format df) r) in Hdt.
    destruct (parsed_hour (hour_format df) r) as [|?|?|?|ns]; try done.
    simpl. pose proof (weekday_of_ns_range ns). split; [done|]. intros [= Heq]. lia.
Qed.

End TransformerMore.

(** ** What a program writes *)

Lemma touches_only_mono {A} paths paths' (m : M A) :
  paths ⊆ paths' → touches_only paths m → touches_only paths' m.
Proof. intros Hsub Hm w p Hp. apply Hm. intros Hin. apply Hp, Hsub, Hin. Qed.

Lemma touches_only_ret {A} paths (a : A) : touches_only paths (mret a).
Proof. by intros w p _. Qed.

Lemma touches_only_bind {A B} paths (m : M A) (k : A → M B) :
  touches_only paths m → (∀ a, touches_only paths (k a)) →
  touches_only paths (m ≫= k).
Proof.
  intros Hm Hk w p Hp. specialize (Hm w p Hp).
  unfold mbind, M_bind. destruct (m w) as [[a|e] w']; simpl in *; [|done].
  by rewrite (Hk a w' p Hp).
Qed.

Lemma touches_only_emit paths o : touches_only paths (emit o).
Proof. by intros w p _. Qed.

Lemma touches_only_lift {A} paths (r : result A) : touches_only paths (lift r).
Proof. by intros w p _. Qed.

Lemma touches_only_write paths p f : p ∈ paths → touches_only paths (write_file p f).
Proof.
  intros Hp w q Hq. cbn. apply lookup_insert_ne. by intros ->.
Qed.

Lemma touches_only_read `{Pandas} paths fmt n p : touches_only paths (read_rows fmt n p).
Proof. intros w q _. unfold read_rows. by destruct (files w !! p). Qed.

Lemma touches_only_read_csv `{Pandas} paths p c n : touches_only paths (read_csv p c n).
Proof. apply touches_only_read. Qed.

Lemma uploads_nothing_ret {A} (a : A) : uploads_nothing (mret a).
Proof. by intros w. Qed.

Lemma uploads_nothing_bind {A B} (m : M A) (k : A → M B) :
  uploads_nothing m → (∀ a, uploads_nothing (k a)) → uploads_nothing (m ≫= k).
Proof.
  intros Hm Hk w. specialize (Hm w).
  unfold mbind, M_bind. destruct (m w) as [[a|e] w']; simpl in *; [|done].
  by rewrite (Hk a w').
Qed.

Lemma uploads_nothing_emit o : uploads_nothing (emit o).
Proof. by intros w. Qed.

Lemma uploads_nothing_lift {A} (r : result A) : uploads_nothing (lift r).
Proof. by intros w. Qed.

Lemma uploads_nothing_write p f : uploads_nothing (write_file p f).
Proof. by intros w. Qed.

Lemma uploads_nothing_read_csv `{Pandas} p c n : uploads_nothing (read_csv p c n).
Proof. intros w. unfold read_csv, read_rows. by destruct (files w !! p). Qed.

(** Stepping through a program, one bind at a time. *)
Ltac frame_step :=
  first
    [ apply touches_only_ret | apply touches_only_emit | apply touches_only_lift
    | apply touches_only_read_csv | apply touches_only_read
    | apply uploads_nothing_ret | apply uploads_nothing_emit | apply uploads_nothing_lift
    | apply uploads_nothing_read_csv | apply uploads_nothing_write
    | apply touches_only_bind; [|intros ?]
    | apply uploads_nothing_bind; [|intros ?] ].

Section Effects.
Context `{Pandas} `{Boto}.

Lemma extract_sample_touches input_path output_path n :
  touches_only [output_path] (extract_sample input_path output_path n).
Proof.
  unfold extract_sample, print, ensure_parent_dir, mkdir_parents, to_csv.
  repeat frame_step. apply touches_only_write. by left.
Qed.

Lemma transform_touches in_path out_path :
  touches_only [out_path] (transform in_path out_path).
Proof.
  unfold transform, log_info, mkdir_parents, to_parquet.
  repeat frame_step. apply touches_only_write. by left.
Qed.

Lemma validate_data_touches p : touches_only [] (validate_data p).
Proof.
  unfold validate_data, log_info, log_warning, read_parquet. cbn [for_each].
  repeat (first [frame_step | case_decide | destruct (negb _)]).
Qed.

Lemma upload_to_s3_touches local_path bucket_name key_prefix logger :
  touches_only [] (upload_to_s3 local_path bucket_name key_prefix logger).
Proof.
  unfold upload_to_s3, when_logger, log_info, log_warning, log_error.
  destruct (negb AWS_AVAILABLE); [destruct logger; frame_step|].
  destruct (s3_upload_file _ _ _); destruct logger; repeat frame_step.
  all: by intros w p _.
Qed.

Lemma load_to_curated_touches in_path out_path logger upload_cloud :
  touches_only [out_path] (load_to_curated in_path out_path logger upload_cloud).
Proof.
  unfold load_to_curated, log_info, mkdir_parents, to_parquet.
  repeat frame_step; [apply touches_only_write; by left|].
  destruct upload_cloud; [|frame_step].
  eapply touches_only_mono; [|apply upload_to_s3_touches]. set_solver.
Qed.

Lemma extract_sample_uploads_nothing input_path output_path n :
  uploads_nothing (extract_sample input_path output_path n).
Proof.
  unfold extract_sample, print, ensure_parent_dir, mkdir_parents, to_csv.
  repeat frame_step.
Qed.

Lemma transform_uploads_nothing in_path out_path :
  uploads_nothing (transform in_path out_path).
Proof.
  unfold transform, log_info, mkdir_parents, to_parquet. repeat frame_step.
Qed.

Lemma validate_data_uploads_nothing p : uploads_nothing (validate_data p).
Proof.
  unfold validate_data, log_info, log_warning, read_parquet. cbn [for_each].
  repeat (first [frame_step | case_decide | destruct (negb _)]).
  intros w. unfold read_file, read_rows. by destruct (files w !! p).
Qed.

End Effects.

(** ** The stages, one by one *)

Section StagesMore.
Context `{Pandas} `{Boto}.

Lemma extract_sample_unreadable input_path output_path n w e :
  sample_outcome GzipCsvText n input_path w = Err e →
  extract_sample input_path output_path n w =
  (Err e, say w [Printed (MsgReadingFrom input_path)]).
Proof.
  intros Hload. unfold extract_sample.
  erewrite bind_ok by apply emit_say.
  erewrite bind_ok by reflexivity.
  erewrite bind_err; [reflexivity|].
  apply read_csv_unreadable. by rewrite sample_outcome_say.
Qed.

(** X5: [extract_sample] reads its input as a gzip archive whatever the
    input is called; when that fails it raises the reader's error after its
    first line and writes nothing; otherwise it writes the frame it read, as
    text at the output path (compressed if the path's name asks for it) and
    nowhere else, and prints its size.  Of a
    gzip archive it reads the first [n] records, all of them without an
    [n], which is the lesser of [n] and the number of records there are,
    and the column types of the sample are those that the reader infers
    from these records alone; where there is no file it raises. *)
Theorem extract_sample_effects input_path output_path n w :
  match sample_outcome GzipCsvText n input_path w with
  | Ok sample =>
      extract_sample input_path output_path n w =
        (Ok tt,
         say (with_file w output_path
                {| file_format := csv_format Infer output_path; file_frame := sample |})
             [Printed (MsgReadingFrom input_path);
              Printed (MsgSampleLoaded (len sample) (length (columns sample)));
              Printed (MsgSampleSaved output_path)])
  | Err e =>
      extract_sample input_path output_path n w =
        (Err e, say w [Printed (MsgReadingFrom input_path)])
  end ∧
  match files w !! input_path with
  | Some f =>
      file_format f = GzipCsvText →
      sample_outcome GzipCsvText n input_path w = Ok (csv_text (head_rows n (file_frame f))) ∧
      len (head_rows n (file_frame f)) =
        from_option (λ n, Nat.min n (len (file_frame f))) (len (file_frame f)) n
  | None => sample_outcome GzipCsvText n input_path w = Err (FileNotFoundError input_path)
  end.
Proof.
  split.
  - destruct (sample_outcome GzipCsvText n input_path w) as [sample|e] eqn:Hload;
      [by apply extract_sample_run|by apply extract_sample_unreadable].
  - unfold sample_outcome, read_rows.
    destruct (files w !! input_path) as [f|]; [|done].
    intros Hfmt. cbn [fst]. unfold parse_file. rewrite decide_True by done.
    split; [done|].
    destruct n as [n|]; [|done].
    unfold len. cbn [head_rows rows from_option]. by rewrite length_take.
Qed.

(** X6: [transform] raises in two cases, and before it writes in both: when
    its input does not read as text, with the reader's error after its
    first line; and when the [hour] column of what it read mixes UTC
    offsets, after its second line.  In every other case it returns,
    whatever the values in the table, having written the transformed table
    as parquet at the output path and nowhere else, and having logged the
    rows read and the rows removed. *)
Theorem transform_effects in_path out_path w :
  match load_outcome (csv_format Infer in_path) in_path w with
  | Ok df =>
      if mixed_hour_offsets df then
        transform in_path out_path w =
          (Err mixed_offsets_error,
           say w [LogLine "transform" INFO (MsgTransforming (name in_path) (name out_path));
                  LogLine "transform" INFO (MsgLoaded (len df) (length (columns df)))])
      else
        ∃ out n,
          transform_frame df = Ok (out, n) ∧
          transform in_path out_path w =
            (Ok tt,
             say (with_file w out_path {| file_format := Parquet; file_frame := out |})
                 (transform_lines in_path out_path (len df) (length (columns df)) n))
  | Err e =>
      transform in_path out_path w =
        (Err e, say w [LogLine "transform" INFO
                         (MsgTransforming (name in_path) (name out_path))])
  end.
Proof.
  destruct (load_outcome _ in_path w) as [df|e] eqn:Hload.
  - destruct (mixed_hour_offsets df) eqn:Hmixed; [by apply transform_mixed|].
    destruct (transform_frame_total df Hmixed) as (out & Hout & _).
    exists out, (Z.of_nat (len df) - Z.of_nat (len out)). split; [done|].
    by apply transform_writes_frame.
  - by apply transform_unreadable.
Qed.

(** X7: [validate_data] only reports: whatever it finds, and whether or not
    its input loads, it leaves every file and the remote store as they were
    and adds lines to standard output; it returns exactly when its input
    loads. *)
Theorem validate_data_only_logs p w :
  files (validate_data p w).2 = files w ∧
  bucket_objects (validate_data p w).2 = bucket_objects w ∧
  (∃ lines, stdout (validate_data p w).2 = stdout w ++ lines) ∧
  ((validate_data p w).1 = Ok tt ↔
   ∃ df, load_outcome (validate_input_format p) p w = Ok df).
Proof.
  destruct (load_outcome (validate_input_format p) p w) as [df|e] eqn:Hload.
  - rewrite (validate_data_loaded p w df Hload). cbn.
    split_and!; [done|done|by eexists|]. split; [by exists df|done].
  - rewrite (validate_data_unreadable p w e Hload). cbn.
    split_and!; [done|done|by eexists|]. split; [done|]. by intros [df ?].
Qed.

(** X8: when the staged path does not end in [.csv], validation sees what
    transformation wrote: [transform] followed by [validate_data] on its
    output path returns, and the findings are those of the transformed
    table. *)
Theorem validate_sees_transform_output in_path out_path w df out n :
  suffix out_path ≠ ".csv" →
  load_outcome (csv_format Infer in_path) in_path w = Ok df →
  transform_frame df = Ok (out, n) →
  (transform in_path out_path;; validate_data out_path) w =
  (Ok tt,
   say (with_file w out_path {| file_format := Parquet; file_frame := out |})
       (transform_lines in_path out_path (len df) (length (columns df)) n
        ++ validation_lines out_path out)).
Proof.
  intros Hsuffix Hload Hframe.
  erewrite bind_ok by (by apply transform_writes_frame).
  rewrite (validate_data_loaded out_path _ out); [by rewrite say_say|].
  unfold validate_input_format. rewrite decide_False by done.
  rewrite load_outcome_say, load_outcome_with_file, decide_True by done.
  unfold parse_file. by rewrite decide_True.
Qed.

End StagesMore.

(** ** The validator's counts *)

Lemma sum_bool_cons b bs : sum_bool (b :: bs) = ((if b then 1 else 0) + sum_bool bs)%nat.
Proof. unfold sum_bool. rewrite filter_cons. by destruct b. Qed.

Lemma distinct_cons (v : cell) (l : list cell) :
  length (remove_dups (v :: l)) = S (length (remove_dups (filter (λ x, x ≠ v) l))).
Proof.
  change (S (length (remove_dups (filter (λ x, x ≠ v) l))))
    with (length (v :: remove_dups (filter (λ x, x ≠ v) l))).
  apply Permutation_length, NoDup_Permutation.
  - apply NoDup_remove_dups.
  - apply NoDup_cons. split; [|apply NoDup_remove_dups].
    rewrite elem_of_remove_dups, list_elem_of_filter. tauto.
  - intros x. rewrite elem_of_remove_dups, !elem_of_cons, elem_of_remove_dups,
      list_elem_of_filter.
    destruct (decide (x = v)); tauto.
Qed.

(** Every value is either marked as a repetition or the first of its kind. *)
Lemma duplicated_from_count seen s :
  (sum_bool (duplicated_from seen s)
   + length (remove_dups (filter (λ v, v ∉ seen) s)) = length s)%nat.
Proof.
  revert seen. induction s as [|v s IH]; intros seen; [done|].
  cbn [duplicated_from length]. rewrite sum_bool_cons, filter_cons.
  specialize (IH (v :: seen)).
  destruct (decide (v ∈ seen)) as [Hv|Hv].
  - rewrite bool_decide_eq_true_2, decide_False by tauto.
    assert (filter (λ x, x ∉ v :: seen) s = filter (λ x, x ∉ seen) s) as Hsame.
    { apply list_filter_iff. intros x. rewrite not_elem_of_cons.
      split; [tauto|]. intros Hx. split; [|done]. by intros ->. }
    rewrite Hsame in IH. lia.
  - rewrite bool_decide_eq_false_2, decide_True by done.
    rewrite distinct_cons.
    assert (filter (λ x, x ≠ v) (filter (λ x, x ∉ seen) s) = filter (λ x, x ∉ v :: seen) s)
      as Hsame.
    { rewrite list_filter_filter. apply list_filter_iff. intros x.
      rewrite not_elem_of_cons. tauto. }
    rewrite Hsame. lia.
Qed.

(** [s.duplicated().sum()] is the length of [s] less its distinct values. *)
Lemma duplicated_sum s :
  sum_bool (duplicated s) = (length s - length (remove_dups s))%nat.
Proof.
  pose proof (duplicated_from_count [] s) as Hcount.
  assert (filter (λ v, v ∉ []) s = s) as Hall.
  { clear Hcount. induction s as [|v s IH]; [done|].
    rewrite filter_cons, decide_True by apply not_elem_of_nil. by f_equal. }
  rewrite Hall in Hcount. unfold duplicated. lia.
Qed.

(** Nothing is marked exactly when no value repeats one seen or earlier. *)
Lemma duplicated_from_none seen s :
  sum_bool (duplicated_from seen s) = 0%nat ↔ NoDup s ∧ ∀ v, v ∈ s → v ∉ seen.
Proof.
  revert seen. induction s as [|v s IH]; intros seen.
  - split; [|done]. intros _. split; [constructor|]. intros v Hv. by apply elem_of_nil in Hv.
  - cbn [duplicated_from]. rewrite sum_bool_cons, NoDup_cons.
    specialize (IH (v :: seen)).
    destruct (decide (v ∈ seen)) as [Hv|Hv].
    + rewrite bool_decide_eq_true_2 by done. split; [lia|].
      intros [_ Hnone]. exfalso. apply (Hnone v); [by left|done].
    + rewrite bool_decide_eq_false_2 by done. simpl. rewrite IH. split.
      * intros [Hnd Hnone]. split_and!; [|done|].
        -- intros Hin. apply (Hnone v Hin). by left.
        -- intros x [->|Hx]%elem_of_cons; [done|].
           intros Hseen. apply (Hnone x Hx). by right.
      * intros [[Hv' Hnd] Hnone]. split; [done|].
        intros x Hx [->|Hseen]%elem_of_cons; [done|].
        apply (Hnone x); [by right|done].
Qed.

Lemma column_values_length df c : length (column_values df c) = len df.
Proof. unfold column_values, len. by rewrite length_fmap. Qed.

Lemma null_findings_of_run p df :
  filter (λ o, is_null_finding o = true) (validation_lines p df) = null_check df.
Proof.
  unfold validation_lines, validation_report.
  rewrite (filter_app _ [_; _]), (filter_app _ _ [_]), (filter_app _ (schema_check df)),
    (filter_app _ (null_check df)), (filter_app _ (type_check df)).
  assert (filter (λ o, is_null_finding o = true) (schema_check df) = []) as ->.
  { unfold schema_check. by destruct (filter _ required_columns). }
  assert (filter (λ o, is_null_finding o = true) (null_check df) = null_check df) as ->.
  { unfold null_check. by destruct (filter _ (isnull_sum df)). }
  assert (filter (λ o, is_null_finding o = true) (type_check df) = []) as ->.
  { apply filter_none, Forall_fmap, Forall_true. by intros c. }
  assert (filter (λ o, is_null_finding o = true) (uniqueness_check df) = []) as ->.
  { unfold uniqueness_check. case_decide; [|done]. by destruct (sum_bool _). }
  cbn. rewrite !decide_False by done. cbn. by rewrite !app_nil_r.
Qed.

Lemma filter_fmap_pair {A B} (f : A → B) (P : B → Prop) `{!∀ y, Decision (P y)}
    (l : list A) :
  filter P (f <$> l) = f <$> filter (λ x, P (f x)) l.
Proof.
  induction l as [|x l IH]; [done|].
  rewrite fmap_cons, !filter_cons, IH. by case_decide.
Qed.

Section ValidatorMore.
Context `{Pandas}.

(** X9: the uniqueness check counts the rows whose [id] repeats an earlier
    one, that is the rows less the distinct ids; it reports that count as a
    warning, says that all ids are unique exactly when no two are equal,
    and says nothing at all about ids when there is no [id] column. *)
Theorem validate_counts_repeated_ids p w df :
  load_outcome (validate_input_format p) p w = Ok df →
  ∃ lines,
    validate_data p w = (Ok tt, say w lines) ∧
    filter (λ o, is_uniqueness_finding o = true) lines =
      if decide ("id" ∈ columns df) then
        if decide (NoDup (column_values df "id")) then [finding INFO MsgIdsUnique]
        else [finding WARNING
                (MsgDuplicatedIds
                   (len df - length (remove_dups (column_values df "id"))))]
      else [].
Proof.
  intros Hload. exists (validation_lines p df).
  split; [by apply validate_data_loaded|].
  rewrite uniqueness_findings_of_run. unfold uniqueness_check.
  case_decide; [|done].
  pose proof (duplicated_sum (column_values df "id")) as Hsum.
  pose proof (duplicated_from_none [] (column_values df "id")) as Hnone.
  fold (duplicated (column_values df "id")) in Hnone.
  rewrite column_values_length in Hsum.
  destruct (sum_bool (duplicated (column_values df "id"))) as [|k] eqn:Hk.
  - rewrite decide_True; [done|]. by apply Hnone.
  - rewrite decide_False; [by rewrite <- Hsum|].
    intros Hnd. destruct Hnone as [_ Hnone]. 
    assert (S k = 0)%nat; [|done].
    apply Hnone. split; [done|]. intros; apply not_elem_of_nil.
Qed.

(** X10: the null check reports, in column order, exactly the columns that
    hold a missing value, each with the number of its missing values, and
    says that there are no nulls exactly when no column holds one. *)
Theorem validate_null_report p w df :
  load_outcome (validate_input_format p) p w = Ok df →
  ∃ lines,
    validate_data p w = (Ok tt, say w lines) ∧
    filter (λ o, is_null_finding o = true) lines =
      match filter (λ c, (0 < null_count df c)%nat) (columns df) with
      | [] => [finding INFO MsgNoNulls]
      | cs => [finding WARNING (MsgNullsFound ((λ c, (c, null_count df c)) <$> cs))]
      end.
Proof.
  intros Hload. exists (validation_lines p df).
  split; [by apply validate_data_loaded|].
  rewrite null_findings_of_run. unfold null_check, isnull_sum.
  rewrite (filter_fmap_pair (λ c, (c, null_count df c))
             (λ cn : string * nat, (0 < cn.2)%nat)).
  cbn [snd]. by destruct (filter _ (columns df)).
Qed.

End ValidatorMore.

(** ** The loader and the upload *)

Section LoaderMore.
Context `{Pandas} `{Boto}.

(** X11: [load_to_curated] copies the table: when its input reads as text
    it returns, and reading the curated file back as parquet gives the very
    table that was read, every other file being as before; when the input
    does not read it raises the reader's error after its first line, with
    nothing written and nothing uploaded. *)
Theorem load_to_curated_effects in_path out_path logger upload_cloud w :
  match load_outcome (csv_format Infer in_path) in_path w with
  | Ok df =>
      (load_to_curated in_path out_path logger upload_cloud w).1 = Ok tt ∧
      load_outcome Parquet out_path
        (load_to_curated in_path out_path logger upload_cloud w).2 = Ok df ∧
      ∀ p, p ≠ out_path →
        files (load_to_curated in_path out_path logger upload_cloud w).2 !! p = files w !! p
  | Err e =>
      load_to_curated in_path out_path logger upload_cloud w =
        (Err e, say w [LogLine (default (setup_logging "load") logger) INFO
                         (MsgLoading (name in_path) (name out_path))])
  end.
Proof.
  destruct (load_outcome _ in_path w) as [df|e] eqn:Hload;
    [|by apply load_to_curated_unreadable].
  destruct (load_to_curated_returns in_path out_path logger upload_cloud w df Hload)
    as (lines & objs & -> & _).
  cbn [fst snd]. split_and!; [done| |].
  - unfold load_outcome, sample_outcome, read_rows. cbn [files]. rewrite lookup_insert_eq.
    cbn [fst]. unfold parse_file. cbn [file_format file_frame]. by rewrite decide_True.
  - intros p Hp. cbn [files]. by rewrite lookup_insert_ne.
Qed.

(** X12: a call of [load_to_curated] uploads at most one object: the
    curated file, to the bucket etl-demo-bucket under the key curated/ and
    the file's name, and only when the input read, the upload was asked for,
    boto3 is there and the upload went through; in every other case the
    bucket is as before. *)
Theorem load_uploads_at_most_once in_path out_path logger upload_cloud w :
  bucket_objects (load_to_curated in_path out_path logger upload_cloud w).2 =
  bucket_objects w ++
  match load_outcome (csv_format Infer in_path) in_path w, upload_cloud, AWS_AVAILABLE,
        s3_upload_file out_path "etl-demo-bucket" ("curated/" +:+ name out_path) with
  | Ok _, true, true, UploadDone =>
      [("etl-demo-bucket", "curated/" +:+ name out_path, out_path)]
  | _, _, _, _ => []
  end.
Proof.
  destruct (load_outcome _ in_path w) as [df|e] eqn:Hload.
  - destruct (load_to_curated_returns in_path out_path logger upload_cloud w df Hload)
      as (lines & objs & -> & Hcase).
    cbn [snd bucket_objects].
    destruct upload_cloud; [|destruct Hcase as [-> _]; by rewrite app_nil_r].
    destruct AWS_AVAILABLE; [destruct (s3_upload_file _ _ _)|];
      destruct Hcase as [-> _]; by rewrite ?app_nil_r.
  - rewrite (load_to_curated_unreadable _ _ _ _ _ _ Hload). cbn. by rewrite app_nil_r.
Qed.

(** X13: [upload_to_s3] never raises, whatever boto3 does, and never
    touches a local file; it says at most one line, and none at all when it
    is given no logger. *)
Theorem upload_to_s3_never_raises local_path bucket_name key_prefix logger w :
  (upload_to_s3 local_path bucket_name key_prefix logger w).1 = Ok tt ∧
  files (upload_to_s3 local_path bucket_name key_prefix logger w).2 = files w ∧
  ∃ lines,
    stdout (upload_to_s3 local_path bucket_name key_prefix logger w).2 = stdout w ++ lines ∧
    (length lines ≤ 1)%nat ∧ (logger = None → lines = []).
Proof.
  destruct (upload_to_s3_returns local_path bucket_name key_prefix logger w)
    as (lines & objs & -> & Hcase).
  cbn [fst snd files stdout]. split_and!; [done..|].
  exists lines. split; [done|].
  destruct AWS_AVAILABLE; [destruct (s3_upload_file _ _ _)|];
    destruct Hcase as [_ ->]; destruct logger; simpl; split; (lia || done).
Qed.

End LoaderMore.

(** ** The orchestrated run and the extract script *)

Section PipelineMore.
Context `{Pandas} `{Boto}.

Lemma run_pipeline_touches (CFG : Config) :
  touches_only [joinpath (samples_dir CFG) "train_sample.csv";
                joinpath (staged_dir CFG) "train_transformed.csv";
                joinpath (curated_dir CFG) "train_curated.parquet"]
    (run_pipeline CFG).
Proof.
  unfold run_pipeline, log_info.
  apply touches_only_bind; [apply touches_only_emit|intros _].
  apply touches_only_bind; [apply touches_only_emit|intros _].
  apply touches_only_bind; [|intros _].
  { eapply touches_only_mono; [|apply extract_sample_touches]. set_solver. }
  apply touches_only_bind; [apply touches_only_emit|intros _].
  apply touches_only_bind; [|intros _].
  { eapply touches_only_mono; [|apply transform_touches]. set_solver. }
  apply touches_only_bind; [apply touches_only_emit|intros _].
  apply touches_only_bind; [|intros _].
  { eapply touches_only_mono; [|apply validate_data_touches]. set_solver. }
  apply touches_only_bind; [apply touches_only_emit|intros _].
  apply touches_only_bind; [|intros _; apply touches_only_emit].
  eapply touches_only_mono; [|apply load_to_curated_touches]. set_solver.
Qed.

(** X14: however the run ends, it has changed no file but the sample, the
    staged and the curated file; the raw archive in particular is as it
    was. *)
Theorem run_pipeline_writes_three_files (CFG : Config) w :
  (∀ p,
     p ∉ [joinpath (samples_dir CFG) "train_sample.csv";
          joinpath (staged_dir CFG) "train_transformed.csv";
          joinpath (curated_dir CFG) "train_curated.parquet"] →
     files (run_pipeline CFG w).2 !! p = files w !! p) ∧
  files (run_pipeline CFG w).2 !! joinpath (raw_dir CFG) "train.gz" =
    files w !! joinpath (raw_dir CFG) "train.gz".
Proof.
  split; [intros p Hp; by apply run_pipeline_touches|].
  apply run_pipeline_touches.
  rewrite !not_elem_of_cons. split_and!; [| | |apply not_elem_of_nil].
  - by apply joinpath_ne.
  - by apply joinpath_ne.
  - by apply joinpath_ne.
Qed.

(** X15: without a raw archive that reads, the run stops in its first step
    with the reader's error: nothing is written, nothing is uploaded, and
    after the start and step lines only the extract's first line is out. *)
Theorem run_pipeline_without_archive (CFG : Config) w e :
  sample_outcome GzipCsvText (Some (sample_rows CFG)) (joinpath (raw_dir CFG) "train.gz") w =
    Err e →
  run_pipeline CFG w =
  (Err e,
   say w [LogLine "pipeline" INFO MsgPipelineStart;
          LogLine "pipeline" INFO (MsgStep 1);
          Printed (MsgReadingFrom (joinpath (raw_dir CFG) "train.gz"))]).
Proof.
  intros Hraw. unfold run_pipeline.
  erewrite bind_ok by apply emit_say.
  erewrite bind_ok by apply emit_say.
  erewrite bind_err;
    [|apply extract_sample_unreadable; rewrite !sample_outcome_say; exact Hraw].
  by rewrite !say_say.
Qed.

(** X16: run as a script, extract.py needs both archives: with a train
    archive that reads it writes the train sample, twice over with the same
    content, and then either writes the test sample as well or, where the
    test archive does not read, raises the reader's error with the train
    sample written and no test sample. *)
Theorem extract_script_outcome (CFG : Config) w train :
  sample_outcome GzipCsvText (Some (sample_rows CFG)) (train_gz CFG) w = Ok train →
  ∃ w',
    files w' !! joinpath (samples_dir CFG) "train_sample.csv" =
      Some {| file_format := CsvText; file_frame := train |} ∧
    match sample_outcome GzipCsvText (Some (sample_rows CFG)) (test_gz CFG) w with
    | Ok test =>
        extract_main CFG w = (Ok tt, w') ∧
        files w' !! joinpath (samples_dir CFG) "test_sample.csv" =
          Some {| file_format := CsvText; file_frame := test |}
    | Err e =>
        extract_main CFG w = (Err e, w') ∧
        files w' !! joinpath (samples_dir CFG) "test_sample.csv" =
          files w !! joinpath (samples_dir CFG) "test_sample.csv"
    end.
Proof.
  intros Htrain.
  set (rows_asked := Some (sample_rows CFG)) in *.
  set (train_sample := joinpath (samples_dir CFG) "train_sample.csv").
  set (test_sample := joinpath (samples_dir CFG) "test_sample.csv").
  assert (train_sample ≠ train_gz CFG) as Hne1 by by apply joinpath_ne.
  assert (train_sample ≠ test_gz CFG) as Hne2 by by apply joinpath_ne.
  assert (train_sample ≠ test_sample) as Hne3 by by apply joinpath_ne.
  assert (csv_format Infer train_sample = CsvText) as Hfmt1
    by (unfold train_sample; by rewrite csv_format_joinpath).
  assert (csv_format Infer test_sample = CsvText) as Hfmt2
    by (unfold test_sample; by rewrite csv_format_joinpath).
  unfold extract_main. fold train_sample test_sample rows_asked.
  erewrite bind_ok by reflexivity.
  erewrite bind_ok by (by apply extract_sample_run).
  erewrite bind_ok.
  2:{ apply extract_sample_run.
      by rewrite sample_outcome_say, sample_outcome_with_file, decide_False. }
  rewrite !with_file_say, !say_say, Hfmt1.
  set (w2 := say _ _).
  assert (sample_outcome GzipCsvText rows_asked (test_gz CFG) w2 =
          sample_outcome GzipCsvText rows_asked (test_gz CFG) w) as Htest.
  { unfold w2. by rewrite sample_outcome_say, !sample_outcome_with_file, !decide_False. }
  destruct (sample_outcome GzipCsvText rows_asked (test_gz CFG) w) as [test|e] eqn:Houtcome.
  - rewrite (extract_sample_run _ _ _ _ _ Htest), Hfmt2.
    eexists. split_and!; [|reflexivity|].
    + cbn [say with_file files]. rewrite lookup_insert_ne by done.
      unfold w2. cbn [say with_file files]. apply lookup_insert_eq.
    + cbn [say with_file files]. apply lookup_insert_eq.
  - rewrite (extract_sample_unreadable _ _ _ _ _ Htest).
    eexists. split_and!; [|reflexivity|].
    + unfold w2. cbn [say with_file files]. apply lookup_insert_eq.
    + unfold w2. cbn [say with_file files]. by rewrite !lookup_insert_ne.
Qed.

Lemma uploads_at_most_after {A} obj (m : M A) (k : A → M unit) :
  uploads_nothing m → (∀ a, uploads_at_most obj (k a)) → uploads_at_most obj (m ≫= k).
Proof.
  intros Hm Hk w. specialize (Hm w). unfold mbind, M_bind.
  destruct (m w) as [[a|e] w']; simpl in *; [|by left].
  rewrite <- Hm. apply Hk.
Qed.

(** X19: a run uploads at most one object, the curated file under the key
    curated/train_curated.parquet of the bucket etl-demo-bucket, and a run
    that raises has uploaded nothing. *)
Theorem run_pipeline_uploads_at_most_once (CFG : Config) w :
  bucket_objects (run_pipeline CFG w).2 = bucket_objects w ∨
  ((run_pipeline CFG w).1 = Ok tt ∧
   bucket_objects (run_pipeline CFG w).2 =
     bucket_objects w ++
     [("etl-demo-bucket", "curated/train_curated.parquet",
       joinpath (curated_dir CFG) "train_curated.parquet")]).
Proof.
  revert w. change (uploads_at_most
    ("etl-demo-bucket", "curated/train_curated.parquet",
     joinpath (curated_dir CFG) "train_curated.parquet") (run_pipeline CFG)).
  unfold run_pipeline, log_info.
  apply uploads_at_most_after; [apply uploads_nothing_emit|intros _].
  apply uploads_at_most_after; [apply uploads_nothing_emit|intros _].
  apply uploads_at_most_after; [apply extract_sample_uploads_nothing|intros _].
  apply uploads_at_most_after; [apply uploads_nothing_emit|intros _].
  apply uploads_at_most_after; [apply transform_uploads_nothing|intros _].
  apply uploads_at_most_after; [apply uploads_nothing_emit|intros _].
  apply uploads_at_most_after; [apply validate_data_uploads_nothing|intros _].
  apply uploads_at_most_after; [apply uploads_nothing_emit|intros _].
  intros w.
  set (staged := joinpath (staged_dir CFG) "train_transformed.csv").
  set (curated := joinpath (curated_dir CFG) "train_curated.parquet").
  destruct (load_outcome (csv_format Infer staged) staged w) as [df|e] eqn:Hload.
  - destruct (load_to_curated_returns staged curated (Some (setup_logging "pipeline"))
                true w df Hload) as (lines & objs & Hrun & Hcase).
    erewrite bind_ok by exact Hrun. cbn [emit fst snd bucket_objects].
    unfold curated in *. rewrite !name_joinpath in Hcase.
    destruct AWS_AVAILABLE; [destruct (s3_upload_file _ _ _)|];
      destruct Hcase as [-> _]; [right|left..]; done.
  - erewrite bind_err by (by apply load_to_curated_unreadable). by left.
Qed.

End PipelineMore.

(** ** Logging set-up *)

Section LoggingMore.
Context `{LoggingConfig.Levels}.

(** After a call the logger is registered and has a handler. *)
Lemma setup_logging_configured (name : option string) (lvl : string)
    (reg reg' : LoggingConfig.loggers) :
  LoggingConfig.setup_logging name lvl reg = Some reg' →
  ∃ lg, reg' !! name = Some lg ∧ LoggingConfig.handlers lg ≠ [] ∧
        ∀ other, other ≠ name → reg' !! other = reg !! other.
Proof.
  unfold LoggingConfig.setup_logging. intros Hsetup.
  case_decide as Hhandlers.
  - injection Hsetup as <-. eexists. split_and!; [apply lookup_insert_eq|done|].
    intros other Hother. by rewrite lookup_insert_ne.
  - destruct (LoggingConfig.level_named lvl) as [n|]; [|done].
    injection Hsetup as <-. eexists. split_and!; [apply lookup_insert_eq| |].
    + cbn. intros Heq. by apply app_eq_nil in Heq as [_ ?].
    + intros other Hother. by rewrite lookup_insert_ne.
Qed.

(** X17: once [setup_logging] has returned for a name, calling it again for
    that name changes nothing, whatever level it is given: the logger keeps
    its one handler and the level of the first call, and a level name that
    would make [setLevel] raise on a first call does no harm on a later
    one. *)
Theorem setup_logging_again (name : option string) (lvl lvl' : string)
    (reg reg' : LoggingConfig.loggers) :
  LoggingConfig.setup_logging name lvl reg = Some reg' →
  LoggingConfig.setup_logging name lvl' reg' = Some reg'.
Proof.
  intros Hsetup.
  destruct (setup_logging_configured _ _ _ _ Hsetup) as (lg & Hlg & Hhandlers & _).
  unfold LoggingConfig.setup_logging, LoggingConfig.getLogger. rewrite Hlg.
  rewrite decide_True by done. f_equal. by apply insert_id.
Qed.

(** X18: after any run of [setup_logging] calls that all return, a logger
    that was named in a call has the handlers it had before the run when it
    had any, and otherwise exactly one, the handler on standard output with
    the pipeline's format, however often and in whatever order its name was
    used; a logger that no call named is as it was. *)
Theorem setup_logging_one_handler (calls : list (option string * string))
    (reg0 reg : LoggingConfig.loggers) :
  LoggingConfig.setup_all calls reg0 = Some reg →
  ∀ name : option string,
    if decide (name ∈ calls.*1) then
      ∃ lg, reg !! name = Some lg ∧
        LoggingConfig.handlers lg =
          if decide (LoggingConfig.handlers (LoggingConfig.getLogger name reg0) = [])
          then [LoggingConfig.stdout_handler]
          else LoggingConfig.handlers (LoggingConfig.getLogger name reg0)
    else reg !! name = reg0 !! name.
Proof.
  revert reg0. induction calls as [|[name0 lvl] calls IH]; intros reg0 Hall name.
  - injection Hall as <-. by rewrite decide_False by apply not_elem_of_nil.
  - cbn [LoggingConfig.setup_all] in Hall.
    destruct (LoggingConfig.setup_logging name0 lvl reg0) as [reg1|] eqn:Hsetup; [|done].
    specialize (IH reg1 Hall name).
    destruct (setup_logging_configured _ _ _ _ Hsetup) as (lg1 & Hlg1 & Hsome & Hothers).
    rewrite fmap_cons. cbn [fst].
    destruct (decide (name = name0)) as [->|Hne].
    + rewrite (decide_True (P := name0 ∈ name0 :: calls.*1)) by by left.
      assert (LoggingConfig.handlers lg1 =
              if decide (LoggingConfig.handlers (LoggingConfig.getLogger name0 reg0) = [])
              then [LoggingConfig.stdout_handler]
              else LoggingConfig.handlers (LoggingConfig.getLogger name0 reg0)) as Hfirst.
      { unfold LoggingConfig.setup_logging in Hsetup.
        destruct (decide (LoggingConfig.handlers (LoggingConfig.getLogger name0 reg0) = []))
          as [Hnone|Hhas].
        - rewrite decide_False in Hsetup by auto.
          destruct (LoggingConfig.level_named lvl) as [n|]; [|done].
          injection Hsetup as <-. rewrite lookup_insert_eq in Hlg1.
          injection Hlg1 as <-. cbn. by rewrite Hnone.
        - rewrite decide_True in Hsetup by done.
          injection Hsetup as <-. rewrite lookup_insert_eq in Hlg1. by injection Hlg1 as <-. }
      destruct (decide (name0 ∈ calls.*1)) as [Hin|Hin].
      * destruct IH as (lg & Hlg & Hh). exists lg. split; [done|].
        assert (LoggingConfig.getLogger name0 reg1 = lg1) as Hget
          by (unfold LoggingConfig.getLogger; by rewrite Hlg1).
        rewrite Hget, decide_False in Hh by done. by rewrite Hh.
      * exists lg1. split; [by rewrite IH|done].
    + assert (LoggingConfig.getLogger name reg1 = LoggingConfig.getLogger name reg0) as Hsame.
      { unfold LoggingConfig.getLogger. by rewrite Hothers. }
      destruct (decide (name ∈ calls.*1)) as [Hin|Hin].
      * rewrite decide_True by by right. by rewrite <- Hsame.
      * rewrite decide_False by (rewrite elem_of_cons; tauto).
        by rewrite IH, Hothers.
Qed.

End LoggingMore.

(** ** The further properties on the sample data *)

Lemma integer_hours_are_nanoseconds_witness :
  ∃ out k,
    @transform_frame numeric_pandas one_click = Ok (out, k) ∧
    Forall (λ r' : row,
              (∃ n, r' !! "hour" = Some (CTime n) ∧ 0 ≤ n < NS_PER_HOUR) ∧
              r' !! "hour_of_day" = Some (CInt 0) ∧
              r' !! "weekday" = Some (CInt 3)) (rows out).
Proof.
  apply (@integer_hours_are_nanoseconds numeric_pandas one_click); [by_evaluation|].
  repeat constructor. exists 14102100. split; [reflexivity|by_evaluation].
Defined.

Lemma transform_sentinel_marks_null_witness :
  ∃ out n,
    @transform_frame numeric_pandas eight_clicks = Ok (out, n) ∧
    Forall (λ r' : row, ∃ t,
              r' !! "hour" = Some t ∧ is_datetimelike t = true ∧
              (t = CNull ↔ r' !! "hour_of_day" = Some (CInt (-1))) ∧
              (t = CNull ↔ r' !! "weekday" = Some (CInt (-1)))) (rows out).
Proof.
  pose proof (@transform_sentinel_marks_null numeric_pandas eight_clicks
                ltac:(by_evaluation)) as Hclaim.
  rewrite eight_clicks_unmixed in Hclaim. exact Hclaim.
Defined.

Lemma validate_sees_transform_output_witness :
  ∃ out n,
    @transform_frame numeric_pandas four_ids = Ok (out, n) ∧
    (@transform numeric_pandas staged_csv curated_parquet;;
     @validate_data numeric_pandas curated_parquet) staged_world =
    (Ok tt,
     say (with_file staged_world curated_parquet
            {| file_format := Parquet; file_frame := out |})
         (transform_lines staged_csv curated_parquet 4 3 n
          ++ validation_lines curated_parquet out)).
Proof.
  destruct (@transform_frame_total numeric_pandas four_ids eq_refl) as (out & Hout & _).
  exists out, (Z.of_nat (len four_ids) - Z.of_nat (len out)). split; [done|].
  apply (@validate_sees_transform_output numeric_pandas staged_csv curated_parquet
           staged_world four_ids out _); [by_evaluation|exact staged_csv_loads|exact Hout].
Defined.

Lemma validate_counts_repeated_ids_witness :
  ∃ lines,
    @validate_data numeric_pandas staged_parquet staged_world = (Ok tt, say staged_world lines) ∧
    filter (λ o, is_uniqueness_finding o = true) lines =
      [finding WARNING (MsgDuplicatedIds 1)].
Proof.
  destruct (@validate_counts_repeated_ids numeric_pandas staged_parquet staged_world four_ids
              staged_parquet_loads) as (lines & Hrun & Hfound).
  exists lines. split; [done|]. rewrite Hfound. vm_compute. reflexivity.
Defined.

Lemma gappy_parquet_loads :
  @load_outcome numeric_pandas (validate_input_format staged_parquet) staged_parquet
    gappy_world = Ok gappy_clicks.
Proof. vm_compute. reflexivity. Qed.

Lemma validate_null_report_witness :
  ∃ lines,
    @validate_data numeric_pandas staged_parquet gappy_world = (Ok tt, say gappy_world lines) ∧
    filter (λ o, is_null_finding o = true) lines =
      [finding WARNING (MsgNullsFound [("hour", 2%nat)])].
Proof.
  destruct (@validate_null_report numeric_pandas staged_parquet gappy_world gappy_clicks
              gappy_parquet_loads) as (lines & Hrun & Hfound).
  exists lines. split; [done|]. rewrite Hfound. vm_compute. reflexivity.
Defined.

Lemma no_archive_in_empty_world :
  @sample_outcome numeric_pandas GzipCsvText (Some (sample_rows sample_config))
    (joinpath (raw_dir sample_config) "train.gz") empty_world =
  Err (FileNotFoundError ["repo"; "data"; "raw"; "train.gz"]).
Proof. vm_compute. reflexivity. Qed.

Lemma run_pipeline_without_archive_witness :
  @run_pipeline numeric_pandas no_boto sample_config empty_world =
  (Err (FileNotFoundError ["repo"; "data"; "raw"; "train.gz"]),
   say empty_world
     [LogLine "pipeline" INFO MsgPipelineStart;
      LogLine "pipeline" INFO (MsgStep 1);
      Printed (MsgReadingFrom ["repo"; "data"; "raw"; "train.gz"])]).
Proof.
  exact (@run_pipeline_without_archive numeric_pandas no_boto sample_config empty_world _
           no_archive_in_empty_world).
Defined.

Lemma extract_script_outcome_witness :
  ∃ w',
    @extract_main numeric_pandas sample_config raw_world =
      (Err (FileNotFoundError ["repo"; "data"; "raw"; "test.gz"]), w') ∧
    files w' !! ["repo"; "data"; "samples"; "train_sample.csv"] =
      Some {| file_format := CsvText; file_frame := eight_clicks |} ∧
    files w' !! ["repo"; "data"; "samples"; "test_sample.csv"] = None.
Proof.
  destruct (@extract_script_outcome numeric_pandas sample_config raw_world eight_clicks
              raw_archive_loads) as (w' & Htrain & Htest).
  exists w'.
  change (@sample_outcome numeric_pandas GzipCsvText (Some (sample_rows sample_config))
            (test_gz sample_config) raw_world)
    with (@Err DataFrame (FileNotFoundError ["repo"; "data"; "raw"; "test.gz"])) in Htest.
  destruct Htest as [Hrun Hnone]. split_and!; [exact Hrun|exact Htrain|exact Hnone].
Defined.

Lemma setup_logging_again_witness :
  ∃ reg,
    @LoggingConfig.setup_logging standard_levels (Some "transform") "INFO" ∅ = Some reg ∧
    @LoggingConfig.setup_logging standard_levels (Some "transform") "DEBUG" reg = Some reg ∧
    reg !! Some "transform" =
      Some {| LoggingConfig.level := 20;
              LoggingConfig.handlers := [LoggingConfig.stdout_handler] |}.
Proof.
  eexists. split_and!; [reflexivity| |reflexivity].
  apply (@setup_logging_again standard_levels (Some "transform") "INFO" "DEBUG" ∅).
  reflexivity.
Defined.

Lemma setup_logging_one_handler_witness :
  ∃ reg,
    @LoggingConfig.setup_all standard_levels logger_calls ∅ = Some reg ∧
    ∀ name : option string,
      if decide (name ∈ logger_calls.*1) then
        ∃ lg, reg !! name = Some lg ∧
          LoggingConfig.handlers lg =
            if decide (LoggingConfig.handlers (LoggingConfig.getLogger name ∅) = [])
            then [LoggingConfig.stdout_handler]
            else LoggingConfig.handlers (LoggingConfig.getLogger name ∅)
      else reg !! name = (∅ : LoggingConfig.loggers) !! name.
Proof.
  eexists. split; [reflexivity|].
  apply (@setup_logging_one_handler standard_levels logger_calls ∅). reflexivity.
Defined.
